(** * Bookkeeping and reporting core of the accounting application

    Shallow embedding of the report builders of the Reports module
    ([buildReports], [computeAccountBalances], [buildLedgerEntries]),
    the dashboard ([buildDashboardMetrics], the customer contribution
    chart), the invoice builder ([calculateLineTotal], [computeTotals],
    [removeLine], [addLine], [handleSubmit] and the PDF line amounts),
    the journal entry form ([isBalanced], [handleRemoveLine],
    [handleEntrySubmit]) and list filter of the Journal module, and the
    CSV export ([downloadCsv], [csvEscape], [downloadLedger]).

    Modelling choices:
    - JavaScript numbers are modelled as exact rationals [Q]; IEEE
      rounding is outside the model.
    - Strings are [String.string]; the relational operators on strings
      ([>=], [<=]) and [localeCompare] on ISO dates are the lexicographic
      order on character codes ([String.compare]).
    - [Map<string, number>] is stdpp's [gmap string Q].
    - [Array.prototype.sort] is stable; it is modelled by a stable
      insertion sort with the same comparator.
    - A [Map] whose iteration order matters is an association list in
      insertion order.
    - Form fields are taken as [parseFloat] has read them. *)

From Stdlib Require Import QArith Qminmax Qabs Lqa Sorting.Sorted Permutation.
From Stdlib Require Import Strings.String Strings.Ascii.
From stdpp Require Import base gmap strings list.

Local Open Scope Q_scope.

(* ------------------------------------------------------------------ *)
(** ** Data model (lib/types) *)

Inductive AccountType := Asset | Liability | Equity | Revenue | Expense.

#[global] Instance AccountType_eq_dec : EqDecision AccountType.
Proof. solve_decision. Defined.

Record Account := mkAccount {
  acc_id : string;
  acc_name : string;
  acc_code : string;
  acc_type : AccountType;
  acc_description : option string;
  acc_isSystem : bool
}.

Record JournalLine := mkLine {
  line_id : string;
  line_accountId : string;
  line_description : option string;
  line_debit : Q;
  line_credit : Q
}.

Record JournalEntry := mkEntry {
  entry_id : string;
  entry_date : string;
  entry_reference : string;
  entry_narration : option string;
  entry_lines : list JournalLine
}.

(* ------------------------------------------------------------------ *)
(** ** JavaScript primitives used by the builders *)

(** [a >= b] and [a <= b] on strings. *)
Definition str_ge (a b : string) : bool := String.leb b a.
Definition str_le (a b : string) : bool := String.leb a b.

(** [x > y] on numbers. *)
Definition num_gt (x y : Q) : bool := negb (Qle_bool x y).

(** [m.get(k) ?? 0]. *)
Definition get_or_zero (m : gmap string Q) (k : string) : Q :=
  default 0 (m !! k).

(** [arr.reduce((acc, x) => acc + f x, 0)]. *)
Definition reduce_sum {A} (f : A -> Q) (l : list A) : Q :=
  fold_left (fun acc x => acc + f x) l 0.

(* ------------------------------------------------------------------ *)
(** ** computeAccountBalances *)

(** [map.set(line.accountId, (map.get(line.accountId) ?? 0) + line.debit - line.credit)] *)
Definition balance_step (m : gmap string Q) (line : JournalLine) : gmap string Q :=
  <[line_accountId line := get_or_zero m (line_accountId line)
                           + line_debit line - line_credit line]> m.

Definition computeAccountBalances (entries : list JournalEntry) : gmap string Q :=
  fold_left (fun m entry => fold_left balance_step (entry_lines entry) m) entries ∅.

(* ------------------------------------------------------------------ *)
(** ** buildReports *)

Record ReportLine := mkReportLine { rl_account : Account; rl_amount : Q }.

Record PnL := mkPnL {
  pnl_periodStart : string;
  pnl_periodEnd : string;
  revenueTotal : Q;
  expenseTotal : Q;
  grossProfit : Q;
  netProfit : Q;
  revenueAccounts : list ReportLine;
  expenseAccounts : list ReportLine
}.

Record BalanceTotals := mkBalanceTotals {
  assetTotal : Q;
  liabilityTotal : Q;
  equityTotal : Q
}.

Record BalanceSheet := mkBalanceSheet {
  bs_periodEnd : string;
  bs_assets : list ReportLine;
  bs_liabilities : list ReportLine;
  bs_equity : list ReportLine;
  bs_totals : BalanceTotals
}.

Record TrialBalanceLine := mkTrialBalanceLine {
  tb_account : Account;
  tb_debit : Q;
  tb_credit : Q
}.

Record TrialBalance := mkTrialBalance {
  tb_periodStart : string;
  tb_periodEnd : string;
  tb_lines : list TrialBalanceLine;
  totalDebit : Q;
  totalCredit : Q
}.

Record Reports := mkReports {
  pnl : PnL;
  balanceSheet : BalanceSheet;
  trialBalance : TrialBalance
}.

Definition in_range (fromDate toDate : string) (entry : JournalEntry) : bool :=
  str_ge (entry_date entry) fromDate && str_le (entry_date entry) toDate.

(** [accounts.filter((account) => account.type === ty)] *)
Definition accounts_of_type (ty : AccountType) (accounts : list Account) : list Account :=
  List.filter (fun account => bool_decide (acc_type account = ty)) accounts.

Definition trial_balance_line (balances : gmap string Q) (account : Account) : TrialBalanceLine :=
  let balance := get_or_zero balances (acc_id account) in
  {| tb_account := account;
     tb_debit := if num_gt balance 0 then balance else 0;
     tb_credit := if num_gt 0 balance then - balance else 0 |}.

Definition buildReports (entries : list JournalEntry) (accounts : list Account)
    (fromDate toDate : string) : Reports :=
  let filteredEntries := List.filter (in_range fromDate toDate) entries in
  let balances := computeAccountBalances filteredEntries in
  let pnlRevenues :=
    map (fun account => mkReportLine account (- get_or_zero balances (acc_id account)))
        (accounts_of_type Revenue accounts) in
  let pnlExpenses :=
    map (fun account => mkReportLine account (get_or_zero balances (acc_id account)))
        (accounts_of_type Expense accounts) in
  let revTotal := reduce_sum rl_amount pnlRevenues in
  let expTotal := reduce_sum rl_amount pnlExpenses in
  let p := {| pnl_periodStart := fromDate; pnl_periodEnd := toDate;
              revenueTotal := revTotal; expenseTotal := expTotal;
              grossProfit := revTotal - expTotal; netProfit := revTotal - expTotal;
              revenueAccounts := pnlRevenues; expenseAccounts := pnlExpenses |} in
  let assets :=
    map (fun account => mkReportLine account (get_or_zero balances (acc_id account)))
        (accounts_of_type Asset accounts) in
  let liabilities :=
    map (fun account => mkReportLine account (- get_or_zero balances (acc_id account)))
        (accounts_of_type Liability accounts) in
  let equity :=
    map (fun account => mkReportLine account (- get_or_zero balances (acc_id account)))
        (accounts_of_type Equity accounts) in
  let bs := {| bs_periodEnd := toDate; bs_assets := assets;
               bs_liabilities := liabilities; bs_equity := equity;
               bs_totals := {| assetTotal := reduce_sum rl_amount assets;
                               liabilityTotal := reduce_sum rl_amount liabilities;
                               equityTotal := reduce_sum rl_amount equity |} |} in
  let trialBalanceLines := map (trial_balance_line balances) accounts in
  let tb := {| tb_periodStart := fromDate; tb_periodEnd := toDate;
               tb_lines := trialBalanceLines;
               totalDebit := reduce_sum tb_debit trialBalanceLines;
               totalCredit := reduce_sum tb_credit trialBalanceLines |} in
  {| pnl := p; balanceSheet := bs; trialBalance := tb |}.

(* ------------------------------------------------------------------ *)
(** ** Stable sort ([Array.prototype.sort] with a comparator)

    [insert_by le x l] places [x] before the first element [y] of [l]
    with [le x y]; sorting from the right keeps elements that compare
    equal in their input order. *)

Fixpoint insert_by {A} (le : A -> A -> bool) (x : A) (l : list A) : list A :=
  match l with
  | [] => [x]
  | y :: l' => if le x y then x :: y :: l' else y :: insert_by le x l'
  end.

Definition sort_by {A} (le : A -> A -> bool) (l : list A) : list A :=
  fold_right (insert_by le) [] l.

(** [(a, b) => a.date.localeCompare(b.date)]: ascending by date. *)
Definition date_asc (a b : JournalEntry) : bool :=
  String.leb (entry_date a) (entry_date b).

(* ------------------------------------------------------------------ *)
(** ** buildLedgerEntries *)

Record LedgerEntry := mkLedgerEntry {
  le_accountId : string;
  le_accountName : string;
  le_date : string;
  le_description : option string;
  le_reference : string;
  le_debit : Q;
  le_credit : Q;
  le_balance : Q
}.

(** [line.description ?? entry.narration] *)
Definition line_or_narration (entry : JournalEntry) (line : JournalLine) : option string :=
  match line_description line with
  | Some d => Some d
  | None => entry_narration entry
  end.

Definition ledger_row (account : Account) (entry : JournalEntry) (line : JournalLine)
    (balance : Q) : LedgerEntry :=
  {| le_accountId := acc_id account; le_accountName := acc_name account;
     le_date := entry_date entry; le_description := line_or_narration entry line;
     le_reference := entry_reference entry;
     le_debit := line_debit line; le_credit := line_credit line;
     le_balance := balance |}.

(** [entry.lines.filter((line) => line.accountId === account.id)] *)
Definition account_lines (account : Account) (entry : JournalEntry) : list JournalLine :=
  List.filter (fun line => String.eqb (line_accountId line) (acc_id account)) (entry_lines entry).

(** Loop state: the ledger built so far and [balance]. *)
Definition ledger_line_step (account : Account) (entry : JournalEntry)
    (st : list LedgerEntry * Q) (line : JournalLine) : list LedgerEntry * Q :=
  let balance := snd st + (line_debit line - line_credit line) in
  (fst st ++ [ledger_row account entry line balance], balance).

Definition ledger_entry_step (account : Account) (st : list LedgerEntry * Q)
    (entry : JournalEntry) : list LedgerEntry * Q :=
  fold_left (ledger_line_step account entry) (account_lines account entry) st.

Definition buildLedgerEntries (entries : list JournalEntry) (account : Account)
    (fromDate toDate : string) : list LedgerEntry :=
  let relevantEntries := sort_by date_asc (List.filter (in_range fromDate toDate) entries) in
  fst (fold_left (ledger_entry_step account) relevantEntries ([], 0)).

(* ------------------------------------------------------------------ *)
(** ** buildDashboardMetrics (summary) *)

(** [x / y] on numbers, with [None] for the non-finite results
    ([NaN], [Infinity]) of a division by zero. *)
Definition js_div (x y : Q) : option Q :=
  if Qeq_bool y 0 then None else Some (x / y).

Record Summary := mkSummary {
  sum_revenue : Q;
  sum_expense : Q;
  sum_profit : Q;
  sum_margin : option Q
}.

(** [(a, b) => b.date.localeCompare(a.date)]: descending by date. *)
Definition date_desc (a b : JournalEntry) : bool :=
  String.leb (entry_date b) (entry_date a).

Definition includes_id (ids : list string) (k : string) : bool :=
  existsb (String.eqb k) ids.

(** Per entry: [entryRevenue] and [entryExpense]. *)
Definition entry_revenue_expense (revenueAccounts expenseAccounts : list string)
    (entry : JournalEntry) : Q * Q :=
  fold_left
    (fun acc line =>
       (if includes_id revenueAccounts (line_accountId line)
        then fst acc + (line_credit line - line_debit line) else fst acc,
        if includes_id expenseAccounts (line_accountId line)
        then snd acc + (line_debit line - line_credit line) else snd acc))
    (entry_lines entry) (0, 0).

Definition dashboard_summary (entries : list JournalEntry) (accounts : list Account) : Summary :=
  let revenueAccounts := map acc_id (accounts_of_type Revenue accounts) in
  let expenseAccounts := map acc_id (accounts_of_type Expense accounts) in
  let sortedEntries := sort_by date_desc entries in
  let totals :=
    fold_left
      (fun acc entry =>
         let er := entry_revenue_expense revenueAccounts expenseAccounts entry in
         (fst acc + fst er, snd acc + snd er))
      sortedEntries (0, 0) in
  let revenue := fst totals in
  let expense := snd totals in
  let profit := revenue - expense in
  let margin :=
    if Qeq_bool revenue 0 then Some 0
    else option_map (fun r => r * 100) (js_div profit revenue) in
  {| sum_revenue := revenue; sum_expense := expense; sum_profit := profit;
     sum_margin := margin |}.

(* ------------------------------------------------------------------ *)
(** ** Invoice totals (Invoicing module) *)

Record InventoryItem := mkInventoryItem {
  inv_id : string;
  inv_name : string;
  inv_unitPrice : Q
}.

(** A draft invoice line with its fields as [parseFloat] reads them:
    [dl_unitPrice] is [None] when the field is empty (the code then falls
    back to the inventory item's price); the other empty fields read as
    ['0'] by the code's [|| '0'] fallback. *)
Record DraftInvoiceLine := mkDraftLine {
  dl_inventoryId : string;
  dl_quantity : Q;
  dl_unitPrice : option Q;
  dl_discount : Q;
  dl_taxRate : Q
}.

Definition calculateLineTotal (quantity rate discount taxRate : Q) : Q :=
  let base := quantity * rate in
  let discountAmount := base * (discount / 100) in
  let taxable := base - discountAmount in
  let taxAmount := taxable * (taxRate / 100) in
  taxable + taxAmount.

(** [parseFloat(line.unitPrice || `${inventory?.unitPrice ?? 0}`)] *)
Definition line_rate (inventoryItems : list InventoryItem) (line : DraftInvoiceLine) : Q :=
  match dl_unitPrice line with
  | Some r => r
  | None =>
      match List.find (fun item => String.eqb (inv_id item) (dl_inventoryId line))
                      inventoryItems with
      | Some item => inv_unitPrice item
      | None => 0
      end
  end.

Record InvoiceTotals := mkInvoiceTotals {
  subtotal : Q;
  discountTotal : Q;
  taxTotal : Q;
  total : Q
}.

(** Loop state: [(subtotal, discountTotal, taxTotal)]. *)
Definition totals_step (inventoryItems : list InventoryItem) (acc : Q * Q * Q)
    (line : DraftInvoiceLine) : Q * Q * Q :=
  let quantity := dl_quantity line in
  if Qeq_bool quantity 0 then acc   (* if (!quantity) continue; *)
  else
    let rate := line_rate inventoryItems line in
    let discount := dl_discount line in
    let taxRate := dl_taxRate line in
    let base := quantity * rate in
    let discountAmount := base * (discount / 100) in
    let taxable := base - discountAmount in
    let taxAmount := taxable * (taxRate / 100) in
    let '(st, dt, tx) := acc in
    (st + taxable, dt + discountAmount, tx + taxAmount).

Definition computeTotals (lines : list DraftInvoiceLine)
    (inventoryItems : list InventoryItem) : InvoiceTotals :=
  let '(st, dt, tx) := fold_left (totals_step inventoryItems) lines (0, 0, 0) in
  {| subtotal := st; discountTotal := dt; taxTotal := tx; total := st + tx |}.

(* ------------------------------------------------------------------ *)
(** ** Journal list view (Journal module, [filteredEntries]) *)

(** ASCII case folding ([toLowerCase] on the ASCII range). *)
Definition lower_ascii (c : ascii) : ascii :=
  let n := nat_of_ascii c in
  if (Nat.leb 65 n && Nat.leb n 90)%bool then ascii_of_nat (n + 32) else c.

Fixpoint toLowerCase (s : string) : string :=
  match s with
  | EmptyString => EmptyString
  | String c s' => String (lower_ascii c) (toLowerCase s')
  end.

Definition is_space (c : ascii) : bool :=
  match nat_of_ascii c with
  | 9 | 10 | 11 | 12 | 13 | 32 => true
  | _ => false
  end%nat.

Fixpoint trim_start (s : string) : string :=
  match s with
  | EmptyString => EmptyString
  | String c s' => if is_space c then trim_start s' else s
  end.

Fixpoint string_rev (s : string) (acc : string) : string :=
  match s with
  | EmptyString => acc
  | String c s' => string_rev s' (String c acc)
  end.

Definition trim (s : string) : string :=
  string_rev (trim_start (string_rev (trim_start s) EmptyString)) EmptyString.

(** [s.includes(t)] *)
Fixpoint includes (s t : string) : bool :=
  String.prefix t s ||
  match s with
  | EmptyString => false
  | String _ s' => includes s' t
  end.

Definition find_account (accounts : list Account) (k : string) : option Account :=
  List.find (fun acc => String.eqb (acc_id acc) k) accounts.

(** [account?.name ?? 'Account removed'] *)
Definition line_account_label (accounts : list Account) (line : JournalLine) : string :=
  match find_account accounts (line_accountId line) with
  | Some account => acc_name account
  | None => "Account removed"
  end.

Definition journal_matches (accounts : list Account) (searchTerm fromDate toDate : string)
    (entry : JournalEntry) : bool :=
  let needle := toLowerCase searchTerm in
  let matchesSearch :=
    Nat.eqb (String.length (trim searchTerm)) 0
    || includes (toLowerCase (entry_reference entry)) needle
    || match entry_narration entry with
       | Some n => includes (toLowerCase n) needle
       | None => false
       end
    || existsb (fun line =>
                  match find_account accounts (line_accountId line) with
                  | Some account => includes (toLowerCase (acc_name account)) needle
                  | None => false
                  end) (entry_lines entry) in
  let matchesFrom := String.eqb fromDate "" || str_ge (entry_date entry) fromDate in
  let matchesTo := String.eqb toDate "" || str_le (entry_date entry) toDate in
  matchesSearch && matchesFrom && matchesTo.

Definition journal_filteredEntries (journalEntries : list JournalEntry)
    (accounts : list Account) (searchTerm fromDate toDate : string) : list JournalEntry :=
  List.filter (journal_matches accounts searchTerm fromDate toDate) journalEntries.

(* ================================================================== *)
(** ** Dashboard metrics: monthly series and recent entries *)

(** A JavaScript [Map] keyed by strings, with its insertion order: an
    association list. [set] on a present key replaces the value in place,
    on a new key it appends. *)
Fixpoint map_get {V} (k : string) (m : list (string * V)) : option V :=
  match m with
  | [] => None
  | (k', v) :: m' => if String.eqb k k' then Some v else map_get k m'
  end.

Fixpoint map_set {V} (k : string) (v : V) (m : list (string * V)) : list (string * V) :=
  match m with
  | [] => [(k, v)]
  | (k', v') :: m' => if String.eqb k k' then (k', v) :: m' else (k', v') :: map_set k v m'
  end.

Record MonthlyMetric := mkMonthlyMetric {
  mm_label : string;
  mm_revenue : Q;
  mm_expense : Q;
  mm_profit : Q
}.

Record DashboardMetrics := mkDashboardMetrics {
  dm_summary : Summary;
  dm_monthly : list MonthlyMetric;
  dm_recentEntries : list JournalEntry
}.

(** [entry.date.slice(0, 7)] *)
Definition monthKey (entry : JournalEntry) : string := substring 0 7 (entry_date entry).

Section DashboardMetricsDef.

(** [new Date(entry.date).toLocaleDateString('en-IN', ...)], a month label
    computed by the locale machinery, left abstract. *)
Variable month_label : string -> string.

(** One iteration of the loop over [sortedEntries]: the state is
    [(monthlyAggregator, revenue, expense)]. *)
Definition metrics_step (revenueAccounts expenseAccounts : list string)
    (st : list (string * MonthlyMetric) * Q * Q) (entry : JournalEntry)
    : list (string * MonthlyMetric) * Q * Q :=
  let '(agg, revenue, expense) := st in
  let key := monthKey entry in
  let agg1 :=
    match map_get key agg with
    | Some _ => agg
    | None => map_set key (mkMonthlyMetric (month_label (entry_date entry)) 0 0 0) agg
    end in
  let bucket := match map_get key agg1 with Some b => b | None => mkMonthlyMetric "" 0 0 0 end in
  let er := entry_revenue_expense revenueAccounts expenseAccounts entry in
  let r := mm_revenue bucket + fst er in
  let x := mm_expense bucket + snd er in
  (map_set key (mkMonthlyMetric (mm_label bucket) r x (r - x)) agg1,
   revenue + fst er, expense + snd er).

(** [for (const bucket of monthlyAggregator.values()) bucket.profit = ...] *)
Definition refresh_profit (p : string * MonthlyMetric) : string * MonthlyMetric :=
  let '(k, b) := p in
  (k, mkMonthlyMetric (mm_label b) (mm_revenue b) (mm_expense b) (mm_revenue b - mm_expense b)).

Definition key_asc (a b : string * MonthlyMetric) : bool := String.leb (fst a) (fst b).

Definition metrics_loop (entries : list JournalEntry) (accounts : list Account)
    : list (string * MonthlyMetric) * Q * Q :=
  let revenueAccounts := map acc_id (accounts_of_type Revenue accounts) in
  let expenseAccounts := map acc_id (accounts_of_type Expense accounts) in
  fold_left (metrics_step revenueAccounts expenseAccounts) (sort_by date_desc entries) ([], 0, 0).

(** [Array.from(monthlyAggregator.entries()).sort(...)], before the
    final [.map(([, value]) => value)]. *)
Definition monthly_buckets (entries : list JournalEntry) (accounts : list Account)
    : list (string * MonthlyMetric) :=
  let '(agg, _, _) := metrics_loop entries accounts in
  sort_by key_asc (map refresh_profit agg).

Definition buildDashboardMetrics (entries : list JournalEntry) (accounts : list Account)
    : DashboardMetrics :=
  let sortedEntries := sort_by date_desc entries in
  let '(_, revenue, expense) := metrics_loop entries accounts in
  let monthly := map snd (monthly_buckets entries accounts) in
  let profit := revenue - expense in
  let margin :=
    if Qeq_bool revenue 0 then Some 0
    else option_map (fun r => r * 100) (js_div profit revenue) in
  {| dm_summary := {| sum_revenue := revenue; sum_expense := expense;
                      sum_profit := profit; sum_margin := margin |};
     dm_monthly := monthly;
     dm_recentEntries := firstn 8 sortedEntries |}.

End DashboardMetricsDef.

(* ------------------------------------------------------------------ *)
(** ** Dashboard customer contribution chart *)

Record Invoice := mkInvoice {
  invoice_id : string;
  invoice_customerId : string;
  invoice_total : Q
}.

Record Party := mkParty {
  party_id : string;
  party_name : string
}.

Record ContributionSlice := mkSlice {
  cs_partyName : string;
  cs_amount : Q
}.

(** The chart data of [customerContribution]: [labels] and [data] are the
    names and amounts of [cc_slices]. *)
Record CustomerContribution := mkCustomerContribution {
  cc_slices : list ContributionSlice;
  cc_totalAmount : Q
}.

(** The [totals] map: [totals.set(id, (totals.get(id) ?? 0) + invoice.total)]. *)
Definition customer_totals (invoices : list Invoice) : list (string * Q) :=
  fold_left (fun totals invoice =>
               map_set (invoice_customerId invoice)
                 (match map_get (invoice_customerId invoice) totals with
                  | Some t => t | None => 0 end + invoice_total invoice) totals)
            invoices [].

(** [parties.find((party) => party.id === partyId)?.name ?? 'Unknown'] *)
Definition party_name_of (parties : list Party) (partyId : string) : string :=
  match List.find (fun party => String.eqb (party_id party) partyId) parties with
  | Some party => party_name party
  | None => "Unknown"
  end.

(** [(a, b) => b.amount - a.amount]: [a] stays before [b] when the
    comparator is not positive. *)
Definition amount_desc (a b : ContributionSlice) : bool := Qle_bool (cs_amount b) (cs_amount a).

Definition customerContribution (invoices : list Invoice) (parties : list Party)
    : CustomerContribution :=
  let sorted :=
    firstn 6 (sort_by amount_desc
                (map (fun p => mkSlice (party_name_of parties (fst p)) (snd p))
                     (customer_totals invoices))) in
  {| cc_slices := sorted; cc_totalAmount := reduce_sum cs_amount sorted |}.


(* ------------------------------------------------------------------ *)
(** ** Invoice builder and journal entry form *)

(** [removeLine] of the invoice builder: a form with one line keeps it. *)
Definition invoice_removeLine {L} (tempId : L -> string) (id : string) (lines : list L) : list L :=
  if Nat.eqb (length lines) 1 then lines
  else List.filter (fun line => negb (String.eqb (tempId line) id)) lines.

(** [handleRemoveLine] of the journal entry form: a form with at most
    two lines keeps them. *)
Definition journal_removeLine {L} (tempId : L -> string) (id : string) (lines : list L) : list L :=
  if Nat.leb (length lines) 2 then lines
  else List.filter (fun line => negb (String.eqb (tempId line) id)) lines.

(** [emptyDraftLine()] as [computeTotals] reads it: quantity ['1'], an
    empty unit price, discount and tax rate ['0'], no inventory item. *)
Definition emptyDraftLine : DraftInvoiceLine := mkDraftLine "" 1 None 0 0.

(** A stored invoice line ([InvoiceLine]) with the fields the totals use. *)
Record InvoiceLine := mkInvoiceLine {
  il_inventoryId : string;
  il_quantity : Q;
  il_unitPrice : Q;
  il_discount : Q;
  il_taxRate : Q
}.

(** [enrichedLines] of [handleSubmit]: [parseFloat(line.unitPrice || '0')]
    reads an empty unit price as 0. *)
Definition enrichLine (line : DraftInvoiceLine) : InvoiceLine :=
  {| il_inventoryId := dl_inventoryId line;
     il_quantity := dl_quantity line;
     il_unitPrice := match dl_unitPrice line with Some r => r | None => 0 end;
     il_discount := dl_discount line;
     il_taxRate := dl_taxRate line |}.

(** The [amount] of a row of the invoice PDF ([downloadInvoicePdf]). *)
Definition pdf_line_amount (line : InvoiceLine) : Q :=
  calculateLineTotal (il_quantity line) (il_unitPrice line) (il_discount line) (il_taxRate line).

Inductive InvoiceSubmit :=
| InvoiceError (message : string)
| InvoiceIssued (lines : list InvoiceLine) (totals : InvoiceTotals).

(** The checks and the payload of the invoice builder's [handleSubmit]. *)
Definition invoice_handleSubmit (customerId : string) (lines : list DraftInvoiceLine)
    (inventoryItems : list InventoryItem) : InvoiceSubmit :=
  let totals := computeTotals lines inventoryItems in
  if String.eqb customerId "" then InvoiceError "Select a customer for the invoice."
  else if existsb (fun line => String.eqb (dl_inventoryId line) "") lines
  then InvoiceError "Each line requires an inventory item."
  else if Qle_bool (subtotal totals) 0
  then InvoiceError "Invoice must contain at least one billable line."
  else InvoiceIssued (map enrichLine lines) totals.

(** A line of the journal entry form, its amounts as
    [parseFloat(line.debit || '0')] reads them. *)
Record JournalDraftLine := mkJournalDraftLine {
  jdl_tempId : string;
  jdl_accountId : string;
  jdl_description : string;
  jdl_debit : Q;
  jdl_credit : Q
}.

(** [Math.abs(debitTotal - creditTotal) < 0.01] *)
Definition journal_isBalanced (lines : list JournalDraftLine) : bool :=
  let debitTotal := reduce_sum jdl_debit lines in
  let creditTotal := reduce_sum jdl_credit lines in
  negb (Qle_bool (1 # 100) (Qabs (debitTotal - creditTotal))).

Inductive JournalSubmit :=
| JournalError (message : string)
| JournalPosted (reference : string) (lines : list JournalLine).

(** The checks and the payload of [handleEntrySubmit]; [newId] stands for
    [crypto.randomUUID()] and [now] for the digits of [Date.now()]. *)
Definition journal_handleEntrySubmit (newId : JournalDraftLine -> string) (now : string)
    (reference : string) (lines : list JournalDraftLine) : JournalSubmit :=
  if negb (journal_isBalanced lines)
  then JournalError "Journal entry must be balanced. Adjust debit and credit values."
  else if existsb (fun line => String.eqb (jdl_accountId line) "") lines
  then JournalError "Every line requires an account selection."
  else JournalPosted (if String.eqb reference "" then ("JRN-" ++ now)%string else reference)
         (map (fun line => mkLine (newId line) (jdl_accountId line) (Some (jdl_description line))
                                  (jdl_debit line) (jdl_credit line)) lines).

(* ------------------------------------------------------------------ *)
(** ** CSV export ([downloadCsv], [csvEscape], [downloadLedger]) *)

Definition dquote : ascii := "034"%char.
Definition comma : ascii := ","%char.
Definition newline : ascii := "010"%char.

(** The regular-expression test of [csvEscape]: a double quote, a comma
    or a line feed occurs in [str]. *)
Fixpoint csv_needs_quotes (s : string) : bool :=
  match s with
  | EmptyString => false
  | String c s' =>
      Ascii.eqb c dquote || Ascii.eqb c comma || Ascii.eqb c newline
      || csv_needs_quotes s'
  end.

(** [str.replace] of every double quote by two double quotes. *)
Fixpoint double_quotes (s : string) : string :=
  match s with
  | EmptyString => EmptyString
  | String c s' =>
      if Ascii.eqb c dquote then String dquote (String dquote (double_quotes s'))
      else String c (double_quotes s')
  end.

Definition csvEscape (str : string) : string :=
  if csv_needs_quotes str
  then String dquote (double_quotes str ++ String dquote EmptyString)
  else str.

(** [Array.prototype.join(sep)] *)
Fixpoint join (sep : string) (l : list string) : string :=
  match l with
  | [] => EmptyString
  | [x] => x
  | x :: l' => x ++ sep ++ join sep l'
  end.

(** The text written by [downloadCsv]. *)
Definition csvContent (rows : list (list string)) : string :=
  join (String newline EmptyString)
       (map (fun row => join (String comma EmptyString) (map csvEscape row)) rows).

Section LedgerCsv.

(** [Number.prototype.toFixed(2)] *)
Variable toFixed2 : Q -> string.

Definition ledger_csv_row (entry : LedgerEntry) : list string :=
  [le_date entry; le_reference entry;
   match le_description entry with Some d => d | None => EmptyString end;
   toFixed2 (le_debit entry); toFixed2 (le_credit entry); toFixed2 (le_balance entry)].

(** The rows [downloadLedger] hands to [downloadCsv] in the csv format. *)
Definition ledger_csv_rows (firmName : string) (account : Account) (entries : list LedgerEntry)
    : list (list string) :=
  [["Ledger"]; ["Firm"; firmName]; ["Account"; acc_name account]; [];
   ["Date"; "Reference"; "Description"; "Debit"; "Credit"; "Balance"]]
  ++ map ledger_csv_row entries.

End LedgerCsv.

(* ================================================================== *)
(** * Specification-side notions *)

(** Right-nested sum [f x1 + (f x2 + ... + 0)]. *)
Definition qsum {A} (f : A -> Q) (l : list A) : Q :=
  fold_right (fun x acc => f x + acc) 0 l.

Definition line_net (line : JournalLine) : Q := line_debit line - line_credit line.

(** An entry whose debits and credits are equal. *)
Definition entry_balanced (entry : JournalEntry) : Prop :=
  qsum line_debit (entry_lines entry) == qsum line_credit (entry_lines entry).

(** Sum of [debit - credit] over the lines of [entries] that reference [k]. *)
Definition account_net (k : string) (entries : list JournalEntry) : Q :=
  qsum (fun entry =>
          qsum line_net (List.filter (fun line => String.eqb (line_accountId line) k)
                                     (entry_lines entry))) entries.

Definition references (k : string) (entries : list JournalEntry) : Prop :=
  exists entry line, In entry entries /\ In line (entry_lines entry) /\ line_accountId line = k.

(* ================================================================== *)
(** * Lemmas on sums and on the balance map *)

Lemma fold_sum_acc {A} (f : A -> Q) (l : list A) (a : Q) :
  fold_left (fun acc x => acc + f x) l a == a + qsum f l.
Proof.
  revert a; induction l as [|x l IH]; intros a; simpl.
  - ring.
  - rewrite IH. ring.
Qed.

Lemma reduce_sum_qsum {A} (f : A -> Q) (l : list A) : reduce_sum f l == qsum f l.
Proof. unfold reduce_sum. rewrite fold_sum_acc. ring. Qed.

Lemma qsum_ext {A} (f g : A -> Q) (l : list A) :
  (forall x, In x l -> f x == g x) -> qsum f l == qsum g l.
Proof.
  induction l as [|x l IH]; intros H; simpl; [reflexivity|].
  rewrite (H x (or_introl eq_refl)), IH; [reflexivity|].
  intros y Hy; apply H; right; exact Hy.
Qed.

Lemma qsum_sub {A} (f g : A -> Q) (l : list A) :
  qsum f l - qsum g l == qsum (fun x => f x - g x) l.
Proof. induction l as [|x l IH]; simpl; [ring|]. rewrite <- IH. ring. Qed.

Lemma qsum_map {A B} (f : B -> Q) (g : A -> B) (l : list A) :
  qsum f (map g l) = qsum (fun x => f (g x)) l.
Proof. induction l as [|x l IH]; simpl; [reflexivity|]. rewrite IH. reflexivity. Qed.

Lemma qsum_app {A} (f : A -> Q) (l1 l2 : list A) :
  qsum f (l1 ++ l2) == qsum f l1 + qsum f l2.
Proof. induction l1 as [|x l IH]; simpl; [ring|]. rewrite IH. ring. Qed.

Lemma get_step (m : gmap string Q) (line : JournalLine) (k : string) :
  get_or_zero (balance_step m line) k =
  if String.eqb (line_accountId line) k
  then get_or_zero m k + line_debit line - line_credit line
  else get_or_zero m k.
Proof.
  unfold get_or_zero, balance_step. rewrite lookup_insert.
  case_decide as Hk.
  - subst. rewrite String.eqb_refl. reflexivity.
  - apply String.eqb_neq in Hk. rewrite Hk. reflexivity.
Qed.

Lemma lookup_step_other (m : gmap string Q) (line : JournalLine) (k : string) :
  line_accountId line <> k -> balance_step m line !! k = m !! k.
Proof. intros Hk. unfold balance_step. apply lookup_insert_ne. exact Hk. Qed.

(** Summing the balance map over a duplicate-free list of account ids
    that covers every line gives the sum of all lines. *)
Lemma qsum_get_step (m : gmap string Q) (line : JournalLine) (ids : list string) :
  List.NoDup ids -> In (line_accountId line) ids ->
  qsum (get_or_zero (balance_step m line)) ids == qsum (get_or_zero m) ids + line_net line.
Proof.
  unfold line_net.
  induction ids as [|k ids IH]; intros Hnd Hin; [destruct Hin|].
  inversion Hnd as [|? ? Hk Hnd']; subst. simpl. rewrite get_step.
  destruct (String.eqb (line_accountId line) k) eqn:Heq.
  - apply String.eqb_eq in Heq. subst k.
    rewrite (qsum_ext (get_or_zero (balance_step m line)) (get_or_zero m)); [ring|].
    intros x Hx. rewrite get_step.
    destruct (String.eqb (line_accountId line) x) eqn:Hx'; [|reflexivity].
    apply String.eqb_eq in Hx'. subst x. contradiction.
  - apply String.eqb_neq in Heq.
    destruct Hin as [Hin|Hin]; [congruence|].
    rewrite IH by assumption. ring.
Qed.

Lemma qsum_get_lines (lines : list JournalLine) (m : gmap string Q) (ids : list string) :
  List.NoDup ids -> (forall line, In line lines -> In (line_accountId line) ids) ->
  qsum (get_or_zero (fold_left balance_step lines m)) ids
  == qsum (get_or_zero m) ids + qsum line_net lines.
Proof.
  revert m; induction lines as [|line lines IH]; intros m Hnd Hcov; simpl.
  - ring.
  - rewrite IH by (auto || (intros; apply Hcov; right; assumption)).
    rewrite qsum_get_step by (auto; apply Hcov; left; reflexivity). ring.
Qed.

Lemma qsum_get_entries (entries : list JournalEntry) (m : gmap string Q) (ids : list string) :
  List.NoDup ids ->
  (forall entry line, In entry entries -> In line (entry_lines entry) ->
     In (line_accountId line) ids) ->
  qsum (get_or_zero (fold_left (fun m entry => fold_left balance_step (entry_lines entry) m)
                                entries m)) ids
  == qsum (get_or_zero m) ids + qsum (fun entry => qsum line_net (entry_lines entry)) entries.
Proof.
  revert m; induction entries as [|entry entries IH]; intros m Hnd Hcov; simpl.
  - ring.
  - rewrite IH; [|exact Hnd|intros e l He Hl; apply (Hcov e l); [right|]; assumption].
    rewrite qsum_get_lines; [ring|exact Hnd|].
    intros l Hl; apply (Hcov entry l); [left; reflexivity|exact Hl].
Qed.

Lemma balanced_net (entry : JournalEntry) :
  entry_balanced entry -> qsum line_net (entry_lines entry) == 0.
Proof.
  unfold entry_balanced, line_net. intros H.
  rewrite <- qsum_sub, H. ring.
Qed.

Lemma trial_balance_line_spec (m : gmap string Q) (account : Account) :
  let b := get_or_zero m (acc_id account) in
  tb_account (trial_balance_line m account) = account /\
  tb_debit (trial_balance_line m account) == Qmax b 0 /\
  tb_credit (trial_balance_line m account) == Qmax (- b) 0 /\
  tb_debit (trial_balance_line m account) - tb_credit (trial_balance_line m account) == b.
Proof.
  cbn zeta. unfold trial_balance_line, num_gt; simpl.
  set (b := get_or_zero m (acc_id account)).
  destruct (Qle_bool b 0) eqn:H1; destruct (Qle_bool 0 b) eqn:H2; simpl;
    rewrite ?Qle_bool_iff in H1, H2;
    try (apply Bool.not_true_iff_false in H1; rewrite Qle_bool_iff in H1);
    try (apply Bool.not_true_iff_false in H2; rewrite Qle_bool_iff in H2);
    (split; [reflexivity|]).
  - assert (Hb : b == 0) by lra. rewrite Hb. vm_compute. repeat split; reflexivity.
  - split; [rewrite Q.max_r by lra; reflexivity|].
    split; [rewrite Q.max_l by lra; reflexivity|]. ring.
  - split; [rewrite Q.max_l by lra; reflexivity|].
    split; [rewrite Q.max_r by lra; reflexivity|]. ring.
  - lra.
Qed.

Lemma qsum_zero {A} (f : A -> Q) (l : list A) :
  (forall x, In x l -> f x == 0) -> qsum f l == 0.
Proof.
  intros H. rewrite (qsum_ext f (fun _ => 0)) by exact H.
  induction l as [|x l IH]; simpl; [reflexivity|]. rewrite IH; [ring|].
  intros; apply H; right; assumption.
Qed.

Lemma buildReports_trialBalance (entries : list JournalEntry) (accounts : list Account)
    (fromDate toDate : string) :
  let balances := computeAccountBalances (List.filter (in_range fromDate toDate) entries) in
  trialBalance (buildReports entries accounts fromDate toDate) =
  let lines := map (trial_balance_line balances) accounts in
  {| tb_periodStart := fromDate; tb_periodEnd := toDate; tb_lines := lines;
     totalDebit := reduce_sum tb_debit lines; totalCredit := reduce_sum tb_credit lines |}.
Proof. reflexivity. Qed.

(* ================================================================== *)
(** * Trial Balance *)

(** Claim C1 (amended). In the Trial Balance of [buildReports] every
    account of the list gets one line, with [debit = max(balance, 0)] and
    [credit = max(-balance, 0)] for its aggregated balance over the
    date-filtered entries, and [totalDebit - totalCredit] is the sum of
    the balances of the listed accounts. Hence the two totals are equal
    when every entry balances exactly and the account list holds each
    account id referenced by a line exactly once. *)
Theorem trial_balance_lines_and_totals (entries : list JournalEntry)
    (accounts : list Account) (fromDate toDate : string) :
  let balances := computeAccountBalances (List.filter (in_range fromDate toDate) entries) in
  let tb := trialBalance (buildReports entries accounts fromDate toDate) in
  map tb_account (tb_lines tb) = accounts /\
  (forall line, In line (tb_lines tb) ->
     tb_debit line == Qmax (get_or_zero balances (acc_id (tb_account line))) 0 /\
     tb_credit line == Qmax (- get_or_zero balances (acc_id (tb_account line))) 0) /\
  totalDebit tb - totalCredit tb == qsum (fun a => get_or_zero balances (acc_id a)) accounts /\
  ((forall entry, In entry entries -> entry_balanced entry) ->
   List.NoDup (map acc_id accounts) ->
   (forall entry line, In entry entries -> In line (entry_lines entry) ->
      In (line_accountId line) (map acc_id accounts)) ->
   totalDebit tb == totalCredit tb).
Proof.
  intros balances tb.
  assert (Htb : tb = trialBalance (buildReports entries accounts fromDate toDate)) by reflexivity.
  rewrite buildReports_trialBalance in Htb. fold balances in Htb.
  assert (Hdiff : totalDebit tb - totalCredit tb
                  == qsum (fun a => get_or_zero balances (acc_id a)) accounts).
  { rewrite Htb; simpl. rewrite !reduce_sum_qsum, qsum_sub, qsum_map.
    apply qsum_ext. intros a _. apply (trial_balance_line_spec balances a). }
  split; [|split; [|split]].
  - rewrite Htb; simpl. rewrite map_map.
    transitivity (map (fun a => a) accounts); [|apply map_id].
    apply map_ext. intros a. apply (trial_balance_line_spec balances a).
  - rewrite Htb; simpl. intros line Hline. apply in_map_iff in Hline.
    destruct Hline as [a [<- _]].
    destruct (trial_balance_line_spec balances a) as [Ha [Hd [Hc _]]].
    rewrite Ha. split; assumption.
  - exact Hdiff.
  - intros Hbal Hnd Hcov.
    assert (Hsum : qsum (fun a => get_or_zero balances (acc_id a)) accounts == 0).
    { rewrite <- (qsum_map (get_or_zero balances) acc_id accounts).
      unfold balances, computeAccountBalances.
      rewrite qsum_get_entries; [|exact Hnd|].
      - rewrite (qsum_zero (get_or_zero ∅)) by (intros; reflexivity).
        rewrite qsum_zero; [ring|].
        intros e He. apply filter_In in He. apply balanced_net, Hbal, He.
      - intros e l He Hl. apply filter_In in He. apply (Hcov e l); [apply He|exact Hl]. }
    lra.
Qed.

(** Claim C1 fails as stated: a balanced entry that debits a listed
    account and credits an account missing from the account list gives a
    Trial Balance whose totals differ (100 against 0). *)
Lemma trial_balance_totals_differ_with_unlisted_account :
  let cash := mkAccount "cash" "Cash" "1000" Asset None false in
  let entry := mkEntry "e1" "2024-05-01" "JRN-1" None
                 [mkLine "l1" "cash" None 100 0; mkLine "l2" "sales" None 0 100] in
  let tb := trialBalance (buildReports [entry] [cash] "2024-01-01" "2024-12-31") in
  entry_balanced entry /\ totalDebit tb == 100 /\ totalCredit tb == 0 /\
  ~ (totalDebit tb == totalCredit tb).
Proof.
  vm_compute. split; [reflexivity|]. split; [reflexivity|]. split; [reflexivity|].
  intros H; discriminate H.
Qed.

(** Claim C10. Every Trial Balance line has a non-negative debit and a
    non-negative credit, and one of the two is exactly 0. *)
Theorem trial_balance_line_one_sided (entries : list JournalEntry)
    (accounts : list Account) (fromDate toDate : string) :
  Forall (fun line => 0 <= tb_debit line /\ 0 <= tb_credit line /\
                      (tb_debit line = 0 \/ tb_credit line = 0))
         (tb_lines (trialBalance (buildReports entries accounts fromDate toDate))).
Proof.
  rewrite buildReports_trialBalance; simpl.
  apply List.Forall_forall. intros line Hline. apply in_map_iff in Hline.
  destruct Hline as [a [<- _]]. unfold trial_balance_line, num_gt; simpl.
  set (b := get_or_zero _ (acc_id a)).
  destruct (Qle_bool b 0) eqn:H1; destruct (Qle_bool 0 b) eqn:H2; simpl;
    rewrite ?Qle_bool_iff in H1, H2;
    try (apply Bool.not_true_iff_false in H1; rewrite Qle_bool_iff in H1);
    try (apply Bool.not_true_iff_false in H2; rewrite Qle_bool_iff in H2).
  - split; [lra|split; [lra|left; reflexivity]].
  - split; [lra|split; [lra|left; reflexivity]].
  - split; [lra|split; [lra|right; reflexivity]].
  - lra.
Qed.

(* ================================================================== *)
(** * Balance aggregator *)

Lemma balance_step_None (m : gmap string Q) (line : JournalLine) (k : string) :
  balance_step m line !! k = None <-> m !! k = None /\ line_accountId line <> k.
Proof.
  unfold balance_step. rewrite lookup_insert.
  case_decide as Hk; split; intros H.
  - discriminate H.
  - destruct H; contradiction.
  - split; assumption.
  - apply H.
Qed.

Lemma fold_lines_None (lines : list JournalLine) (m : gmap string Q) (k : string) :
  fold_left balance_step lines m !! k = None <->
  m !! k = None /\ (forall line, In line lines -> line_accountId line <> k).
Proof.
  revert m; induction lines as [|line lines IH]; intros m; simpl.
  - split; [intros H; split; [exact H|intros _ []]|intros [H _]; exact H].
  - rewrite IH, balance_step_None. split.
    + intros [[Hm Hl] Hls]. split; [exact Hm|].
      intros l [<-|Hin]; [exact Hl|apply Hls, Hin].
    + intros [Hm Hls]. split; [split; [exact Hm|apply Hls; left; reflexivity]|].
      intros l Hin; apply Hls; right; exact Hin.
Qed.

Lemma fold_lines_get (lines : list JournalLine) (m : gmap string Q) (k : string) :
  get_or_zero (fold_left balance_step lines m) k
  == get_or_zero m k
     + qsum line_net (List.filter (fun line => String.eqb (line_accountId line) k) lines).
Proof.
  revert m; induction lines as [|line lines IH]; intros m; simpl; [ring|].
  rewrite IH, get_step. unfold line_net.
  destruct (String.eqb (line_accountId line) k); simpl; ring.
Qed.

Lemma fold_entries_None (entries : list JournalEntry) (m : gmap string Q) (k : string) :
  fold_left (fun m entry => fold_left balance_step (entry_lines entry) m) entries m !! k = None
  <-> m !! k = None /\ ~ references k entries.
Proof.
  unfold references.
  revert m; induction entries as [|entry entries IH]; intros m; simpl.
  - split; [intros H; split; [exact H|intros (e & l & [] & _)]|intros [H _]; exact H].
  - rewrite IH, fold_lines_None. split.
    + intros [[Hm Hl] Hr]. split; [exact Hm|].
      intros (e & l & [<-|He] & Hin & Hk).
      * exact (Hl l Hin Hk).
      * apply Hr. exists e, l. auto.
    + intros [Hm Hr]. split; [split; [exact Hm|]|].
      * intros l Hin Hk. apply Hr. exists entry, l. auto.
      * intros (e & l & He & Hin & Hk). apply Hr. exists e, l. auto.
Qed.

Lemma fold_entries_get (entries : list JournalEntry) (m : gmap string Q) (k : string) :
  get_or_zero (fold_left (fun m entry => fold_left balance_step (entry_lines entry) m)
                         entries m) k
  == get_or_zero m k + account_net k entries.
Proof.
  unfold account_net.
  revert m; induction entries as [|entry entries IH]; intros m; simpl; [ring|].
  rewrite IH, fold_lines_get. ring.
Qed.

(** Claim C2. [computeAccountBalances] maps every account id referenced
    by some line to the sum of [debit - credit] over the lines that
    reference it, across all supplied entries, and has no entry for an
    id that no line references. Being a Rocq function on its inputs, it
    is total, deterministic and free of effects. *)
Theorem computeAccountBalances_spec (entries : list JournalEntry) (k : string) :
  (references k entries ->
   exists v, computeAccountBalances entries !! k = Some v /\ v == account_net k entries) /\
  (~ references k entries -> computeAccountBalances entries !! k = None).
Proof.
  split.
  - intros Hr. destruct (computeAccountBalances entries !! k) as [v|] eqn:Hv.
    + exists v. split; [reflexivity|].
      pose proof (fold_entries_get entries ∅ k) as Hg.
      unfold computeAccountBalances in Hv. unfold get_or_zero in Hg at 1.
      rewrite Hv in Hg. simpl in Hg. rewrite Hg. unfold get_or_zero.
      rewrite lookup_empty. simpl. ring.
    + apply fold_entries_None in Hv. destruct Hv as [_ Hv]. contradiction.
  - intros Hr. apply fold_entries_None. split; [apply lookup_empty|exact Hr].
Qed.

Lemma get_balances (entries : list JournalEntry) (k : string) :
  get_or_zero (computeAccountBalances entries) k == account_net k entries.
Proof.
  unfold computeAccountBalances. rewrite fold_entries_get.
  unfold get_or_zero at 1. rewrite lookup_empty. simpl. ring.
Qed.

Lemma accounts_of_type_spec (ty : AccountType) (accounts : list Account) (a : Account) :
  In a (accounts_of_type ty accounts) <-> In a accounts /\ acc_type a = ty.
Proof.
  unfold accounts_of_type. rewrite filter_In, bool_decide_eq_true. reflexivity.
Qed.

Lemma in_map_report_line (f : Account -> Q) (l : list Account) (rl : ReportLine) :
  In rl (map (fun a => mkReportLine a (f a)) l) ->
  In (rl_account rl) l /\ rl_amount rl = f (rl_account rl).
Proof.
  intros H. apply in_map_iff in H. destruct H as [a [<- Ha]]. simpl. auto.
Qed.

Lemma map_rl_account (f : Account -> Q) (l : list Account) :
  map rl_account (map (fun a => mkReportLine a (f a)) l) = l.
Proof. rewrite map_map. simpl. apply map_id. Qed.

(* ================================================================== *)
(** * Profit & Loss and Balance Sheet *)

(** Claim C3. In the Profit & Loss report of [buildReports] the Revenue
    accounts (in list order) contribute [-balance] and the Expense
    accounts [balance], the two totals are the sums of these amounts and
    [grossProfit = netProfit = revenueTotal - expenseTotal]. For one
    entry in the period that credits a Revenue account 100 and debits an
    Asset account 100, with these two accounts listed, revenueTotal,
    assetTotal and netProfit are all 100. *)
Theorem profit_and_loss_spec (entries : list JournalEntry) (accounts : list Account)
    (fromDate toDate : string) :
  (let balances := computeAccountBalances (List.filter (in_range fromDate toDate) entries) in
   let p := pnl (buildReports entries accounts fromDate toDate) in
   map rl_account (revenueAccounts p) = accounts_of_type Revenue accounts /\
   (forall rl, In rl (revenueAccounts p) ->
      acc_type (rl_account rl) = Revenue /\
      rl_amount rl = - get_or_zero balances (acc_id (rl_account rl))) /\
   map rl_account (expenseAccounts p) = accounts_of_type Expense accounts /\
   (forall rl, In rl (expenseAccounts p) ->
      acc_type (rl_account rl) = Expense /\
      rl_amount rl = get_or_zero balances (acc_id (rl_account rl))) /\
   revenueTotal p == qsum rl_amount (revenueAccounts p) /\
   expenseTotal p == qsum rl_amount (expenseAccounts p) /\
   grossProfit p = revenueTotal p - expenseTotal p /\
   netProfit p = revenueTotal p - expenseTotal p) /\
  (forall (rev asset : Account) (entry : JournalEntry) (l1 l2 : string)
          (d1 d2 : option string),
   acc_type rev = Revenue -> acc_type asset = Asset -> acc_id rev <> acc_id asset ->
   entry_lines entry = [mkLine l1 (acc_id asset) d1 100 0; mkLine l2 (acc_id rev) d2 0 100] ->
   in_range fromDate toDate entry = true ->
   let r := buildReports [entry] [rev; asset] fromDate toDate in
   revenueTotal (pnl r) == 100 /\ assetTotal (bs_totals (balanceSheet r)) == 100 /\
   netProfit (pnl r) == 100).
Proof.
  split.
  - cbn zeta. simpl. split; [apply map_rl_account|]. split.
    { intros rl H. apply in_map_report_line in H. destruct H as [H ->].
      apply accounts_of_type_spec in H. tauto. }
    split; [apply map_rl_account|]. split.
    { intros rl H. apply in_map_report_line in H. destruct H as [H ->].
      apply accounts_of_type_spec in H. tauto. }
    split; [apply reduce_sum_qsum|]. split; [apply reduce_sum_qsum|].
    split; reflexivity.
  - intros rev asset entry l1 l2 d1 d2 Hrev Hasset Hneq Hlines Hin r.
    assert (Hbal : forall k,
               get_or_zero (computeAccountBalances [entry]) k
               == (if String.eqb (acc_id asset) k then 100 else 0)
                  + (if String.eqb (acc_id rev) k then -100 else 0)).
    { intros k. rewrite get_balances. unfold account_net. simpl. rewrite Hlines. simpl.
      destruct (String.eqb (acc_id asset) k); destruct (String.eqb (acc_id rev) k);
        vm_compute; reflexivity. }
    assert (Hne : String.eqb (acc_id asset) (acc_id rev) = false)
      by (apply String.eqb_neq; congruence).
    assert (Hne' : String.eqb (acc_id rev) (acc_id asset) = false)
      by (apply String.eqb_neq; congruence).
    unfold r, buildReports, accounts_of_type. simpl. rewrite Hin. simpl.
    rewrite Hrev, Hasset. simpl.
    unfold reduce_sum. simpl. rewrite !Hbal, !String.eqb_refl, Hne, Hne'.
    split; [|split]; vm_compute; reflexivity.
Qed.

(** Claim C5. In the Balance Sheet of [buildReports] the Asset accounts
    contribute their balance, the Liability and Equity accounts the
    negation of their balance, and each section total is the sum of the
    amounts of its section. *)
Theorem balance_sheet_spec (entries : list JournalEntry) (accounts : list Account)
    (fromDate toDate : string) :
  let balances := computeAccountBalances (List.filter (in_range fromDate toDate) entries) in
  let bs := balanceSheet (buildReports entries accounts fromDate toDate) in
  map rl_account (bs_assets bs) = accounts_of_type Asset accounts /\
  (forall rl, In rl (bs_assets bs) ->
     acc_type (rl_account rl) = Asset /\
     rl_amount rl = get_or_zero balances (acc_id (rl_account rl))) /\
  map rl_account (bs_liabilities bs) = accounts_of_type Liability accounts /\
  (forall rl, In rl (bs_liabilities bs) ->
     acc_type (rl_account rl) = Liability /\
     rl_amount rl = - get_or_zero balances (acc_id (rl_account rl))) /\
  map rl_account (bs_equity bs) = accounts_of_type Equity accounts /\
  (forall rl, In rl (bs_equity bs) ->
     acc_type (rl_account rl) = Equity /\
     rl_amount rl = - get_or_zero balances (acc_id (rl_account rl))) /\
  assetTotal (bs_totals bs) == qsum rl_amount (bs_assets bs) /\
  liabilityTotal (bs_totals bs) == qsum rl_amount (bs_liabilities bs) /\
  equityTotal (bs_totals bs) == qsum rl_amount (bs_equity bs).
Proof.
  cbn zeta. simpl.
  split; [apply map_rl_account|]. split.
  { intros rl H. apply in_map_report_line in H. destruct H as [H ->].
    apply accounts_of_type_spec in H. tauto. }
  split; [apply map_rl_account|]. split.
  { intros rl H. apply in_map_report_line in H. destruct H as [H ->].
    apply accounts_of_type_spec in H. tauto. }
  split; [apply map_rl_account|]. split.
  { intros rl H. apply in_map_report_line in H. destruct H as [H ->].
    apply accounts_of_type_spec in H. tauto. }
  split; [apply reduce_sum_qsum|]. split; apply reduce_sum_qsum.
Qed.

(* ================================================================== *)
(** * Invoice totals *)

(** The per-line quantities as the specification names them. *)
Definition spec_base (quantity unitPrice : Q) : Q := quantity * unitPrice.
Definition spec_discountAmount (quantity unitPrice discount : Q) : Q :=
  spec_base quantity unitPrice * discount / 100.
Definition spec_taxable (quantity unitPrice discount : Q) : Q :=
  spec_base quantity unitPrice - spec_discountAmount quantity unitPrice discount.
Definition spec_taxAmount (quantity unitPrice discount taxRate : Q) : Q :=
  spec_taxable quantity unitPrice discount * taxRate / 100.

Definition draft_taxable (inventoryItems : list InventoryItem) (l : DraftInvoiceLine) : Q :=
  spec_taxable (dl_quantity l) (line_rate inventoryItems l) (dl_discount l).
Definition draft_discountAmount (inventoryItems : list InventoryItem) (l : DraftInvoiceLine) : Q :=
  spec_discountAmount (dl_quantity l) (line_rate inventoryItems l) (dl_discount l).
Definition draft_taxAmount (inventoryItems : list InventoryItem) (l : DraftInvoiceLine) : Q :=
  spec_taxAmount (dl_quantity l) (line_rate inventoryItems l) (dl_discount l) (dl_taxRate l).
Definition draft_lineTotal (inventoryItems : list InventoryItem) (l : DraftInvoiceLine) : Q :=
  calculateLineTotal (dl_quantity l) (line_rate inventoryItems l) (dl_discount l) (dl_taxRate l).

Lemma totals_fold (inventoryItems : list InventoryItem) (lines : list DraftInvoiceLine)
    (a b c : Q) :
  let r := fold_left (totals_step inventoryItems) lines (a, b, c) in
  fst (fst r) == a + qsum (draft_taxable inventoryItems) lines /\
  snd (fst r) == b + qsum (draft_discountAmount inventoryItems) lines /\
  snd r == c + qsum (draft_taxAmount inventoryItems) lines.
Proof.
  revert a b c; induction lines as [|l lines IH]; intros a b c; simpl.
  - split; [|split]; ring.
  - destruct (totals_step inventoryItems (a, b, c) l) as [[x y] z] eqn:Hs.
    destruct (IH x y z) as [H1 [H2 H3]].
    rewrite H1, H2, H3. clear H1 H2 H3 IH.
    unfold totals_step in Hs.
    unfold draft_taxable, draft_discountAmount, draft_taxAmount,
      spec_taxAmount, spec_taxable, spec_discountAmount, spec_base.
    destruct (Qeq_bool (dl_quantity l) 0) eqn:Hq; injection Hs as <- <- <-.
    + apply Qeq_bool_iff in Hq. rewrite Hq. split; [|split]; field.
    + split; [|split]; field.
Qed.

(** Claim C6. [calculateLineTotal] is [taxable + taxAmount] with
    [base = quantity * unitPrice], [discountAmount = base * discount/100],
    [taxable = base - discountAmount], [taxAmount = taxable * taxRate/100];
    [computeTotals] sums [taxable], [discountAmount] and [taxAmount] over
    the lines (a line of quantity 0 contributes 0), its [total] is
    [subtotal + taxTotal] and equals the sum of the line totals. A line of
    quantity 2, unit price 50, discount 10% and tax rate 18% has base 100,
    discount 10, taxable 90, tax 16.2 and total 106.2, and three such lines
    (one priced from its inventory item) give subtotal 270, discounts 30,
    tax 48.6 and total 318.6. *)
Theorem invoice_totals_spec (lines : list DraftInvoiceLine)
    (inventoryItems : list InventoryItem) :
  (forall quantity unitPrice discount taxRate,
     calculateLineTotal quantity unitPrice discount taxRate
     == spec_taxable quantity unitPrice discount
        + spec_taxAmount quantity unitPrice discount taxRate) /\
  (let t := computeTotals lines inventoryItems in
   subtotal t == qsum (draft_taxable inventoryItems) lines /\
   discountTotal t == qsum (draft_discountAmount inventoryItems) lines /\
   taxTotal t == qsum (draft_taxAmount inventoryItems) lines /\
   total t = subtotal t + taxTotal t /\
   total t == qsum (draft_lineTotal inventoryItems) lines) /\
  (spec_base 2 50 == 100 /\ spec_discountAmount 2 50 10 == 10 /\
   spec_taxable 2 50 10 == 90 /\ spec_taxAmount 2 50 10 18 == 16.2 /\
   calculateLineTotal 2 50 10 18 == 106.2) /\
  (let t := computeTotals [mkDraftLine "sku-1" 2 (Some 50) 10 18;
                           mkDraftLine "sku-1" 2 (Some 50) 10 18;
                           mkDraftLine "sku-1" 2 None 10 18]
                          [mkInventoryItem "sku-1" "Widget" 50] in
   subtotal t == 270 /\ discountTotal t == 30 /\ taxTotal t == 48.6 /\ total t == 318.6).
Proof.
  assert (Hline : forall quantity unitPrice discount taxRate,
     calculateLineTotal quantity unitPrice discount taxRate
     == spec_taxable quantity unitPrice discount
        + spec_taxAmount quantity unitPrice discount taxRate).
  { intros. unfold calculateLineTotal, spec_taxAmount, spec_taxable,
      spec_discountAmount, spec_base. field. }
  split; [exact Hline|]. split.
  - cbn zeta. unfold computeTotals.
    pose proof (totals_fold inventoryItems lines 0 0 0) as Hf. cbn zeta in Hf.
    destruct (fold_left (totals_step inventoryItems) lines (0, 0, 0)) as [[st dt] tx].
    simpl in *. destruct Hf as [H1 [H2 H3]].
    split; [rewrite H1; ring|]. split; [rewrite H2; ring|].
    split; [rewrite H3; ring|]. split; [reflexivity|].
    rewrite H1, H3.
    assert (Hsum : forall ls,
      qsum (draft_lineTotal inventoryItems) ls
      == qsum (draft_taxable inventoryItems) ls + qsum (draft_taxAmount inventoryItems) ls).
    { induction ls as [|l ls IH]; simpl; [ring|]. rewrite IH.
      unfold draft_lineTotal, draft_taxable, draft_taxAmount. rewrite Hline. ring. }
    rewrite Hsum. ring.
  - split; [vm_compute; repeat split; reflexivity|].
    vm_compute. repeat split; reflexivity.
Qed.

(* ================================================================== *)
(** * Dashboard summary margin *)

(** Claim C8. The dashboard margin is [profit / revenue * 100] when the
    total revenue is not 0 and exactly 0 when it is 0, so it is never a
    non-finite number; with no revenue and no expense (for instance no
    entries at all) it is 0. *)
Theorem dashboard_margin_spec (entries : list JournalEntry) (accounts : list Account) :
  let s := dashboard_summary entries accounts in
  (sum_revenue s == 0 -> sum_margin s = Some 0) /\
  (~ sum_revenue s == 0 -> sum_margin s = Some (sum_profit s / sum_revenue s * 100)) /\
  sum_margin s <> None /\
  (sum_revenue s == 0 -> sum_expense s == 0 -> sum_margin s = Some 0) /\
  sum_margin (dashboard_summary [] accounts) = Some 0.
Proof.
  cbn zeta. unfold dashboard_summary at 1 2 3 4 5 6 7 8 9 10; cbn [sum_margin sum_revenue sum_profit].
  set (revenue := fst _). set (expense := snd _).
  destruct (Qeq_bool revenue 0) eqn:Hr.
  - apply Qeq_bool_iff in Hr.
    split; [reflexivity|]. split; [intros H; contradiction|].
    split; [discriminate|]. split; [reflexivity|]. reflexivity.
  - apply Qeq_bool_neq in Hr. unfold js_div.
    destruct (Qeq_bool revenue 0) eqn:Hr'; [apply Qeq_bool_iff in Hr'; contradiction|].
    split; [intros H; contradiction|]. split; [reflexivity|].
    split; [discriminate|]. split; [intros H; contradiction|]. reflexivity.
Qed.

(* ================================================================== *)
(** * Lines of accounts missing from the account list *)

(** The entries with every line of account [k] removed. *)
Definition drop_account_lines (k : string) (entries : list JournalEntry) : list JournalEntry :=
  map (fun entry =>
         mkEntry (entry_id entry) (entry_date entry) (entry_reference entry)
                 (entry_narration entry)
                 (List.filter (fun line => negb (String.eqb (line_accountId line) k))
                              (entry_lines entry))) entries.

Lemma filter_drop_account_lines (k fromDate toDate : string) (entries : list JournalEntry) :
  List.filter (in_range fromDate toDate) (drop_account_lines k entries)
  = drop_account_lines k (List.filter (in_range fromDate toDate) entries).
Proof.
  induction entries as [|entry entries IH]; simpl; [reflexivity|].
  unfold in_range at 1; simpl. fold (in_range fromDate toDate entry).
  destruct (in_range fromDate toDate entry); simpl; rewrite IH; reflexivity.
Qed.

Lemma fold_lines_drop_agree (k : string) (lines : list JournalLine) (m1 m2 : gmap string Q) :
  (forall k', k' <> k -> m1 !! k' = m2 !! k') ->
  forall k', k' <> k ->
  fold_left balance_step
    (List.filter (fun line => negb (String.eqb (line_accountId line) k)) lines) m1 !! k'
  = fold_left balance_step lines m2 !! k'.
Proof.
  revert m1 m2; induction lines as [|line lines IH]; intros m1 m2 Hag; simpl; [exact Hag|].
  destruct (String.eqb (line_accountId line) k) eqn:Hk; simpl.
  - apply String.eqb_eq in Hk. apply IH.
    intros k' Hk'. rewrite lookup_step_other by congruence. apply Hag, Hk'.
  - apply String.eqb_neq in Hk. apply IH.
    intros k' Hk'. unfold balance_step, get_or_zero. rewrite !lookup_insert.
    case_decide as Heq; [|apply Hag, Hk'].
    rewrite (Hag (line_accountId line) Hk). reflexivity.
Qed.

Lemma fold_entries_drop_agree (k : string) (entries : list JournalEntry)
    (m1 m2 : gmap string Q) :
  (forall k', k' <> k -> m1 !! k' = m2 !! k') ->
  forall k', k' <> k ->
  fold_left (fun m entry => fold_left balance_step (entry_lines entry) m)
            (drop_account_lines k entries) m1 !! k'
  = fold_left (fun m entry => fold_left balance_step (entry_lines entry) m) entries m2 !! k'.
Proof.
  revert m1 m2; induction entries as [|entry entries IH]; intros m1 m2 Hag; simpl; [exact Hag|].
  apply IH. intros k' Hk'. apply fold_lines_drop_agree; assumption.
Qed.

Lemma balances_drop_agree (k : string) (entries : list JournalEntry) (k' : string) :
  k' <> k ->
  computeAccountBalances (drop_account_lines k entries) !! k'
  = computeAccountBalances entries !! k'.
Proof. apply fold_entries_drop_agree. reflexivity. Qed.

Lemma buildReports_balances_ext (e1 e2 : list JournalEntry) (accounts : list Account)
    (fromDate toDate : string) :
  (forall a, In a accounts ->
     get_or_zero (computeAccountBalances (List.filter (in_range fromDate toDate) e1)) (acc_id a)
     = get_or_zero (computeAccountBalances (List.filter (in_range fromDate toDate) e2)) (acc_id a)) ->
  buildReports e1 accounts fromDate toDate = buildReports e2 accounts fromDate toDate.
Proof.
  intros H. unfold buildReports. cbv zeta.
  set (B1 := computeAccountBalances (List.filter (in_range fromDate toDate) e1)) in *.
  set (B2 := computeAccountBalances (List.filter (in_range fromDate toDate) e2)) in *.
  assert (Hpos : forall ty,
    map (fun account => mkReportLine account (get_or_zero B1 (acc_id account)))
        (accounts_of_type ty accounts)
    = map (fun account => mkReportLine account (get_or_zero B2 (acc_id account)))
        (accounts_of_type ty accounts)).
  { intros ty. apply map_ext_in. intros a Ha. apply accounts_of_type_spec in Ha.
    rewrite H by apply Ha. reflexivity. }
  assert (Hneg : forall ty,
    map (fun account => mkReportLine account (- get_or_zero B1 (acc_id account)))
        (accounts_of_type ty accounts)
    = map (fun account => mkReportLine account (- get_or_zero B2 (acc_id account)))
        (accounts_of_type ty accounts)).
  { intros ty. apply map_ext_in. intros a Ha. apply accounts_of_type_spec in Ha.
    rewrite H by apply Ha. reflexivity. }
  assert (Htb : map (trial_balance_line B1) accounts = map (trial_balance_line B2) accounts).
  { apply map_ext_in. intros a Ha. unfold trial_balance_line. rewrite H by exact Ha.
    reflexivity. }
  rewrite !Hpos, !Hneg, Htb. reflexivity.
Qed.

(** Claim C7. Let [k] be an account id that no account of the list has,
    referenced by a line of an entry of the period. Building the reports
    does not fail ([buildReports] is total); the balance map still holds
    the sum of [k]'s lines under [k]; no Profit & Loss, Balance Sheet or
    Trial Balance line belongs to [k]; the reports are exactly those of the
    entries with [k]'s lines removed, so [k]'s amounts vanish from every
    total; and the Journal list (no search term, no date filter) still
    shows every entry with a line of [k], labelled "Account removed". *)
Theorem orphaned_account_lines (entries : list JournalEntry) (accounts : list Account)
    (fromDate toDate k : string) :
  ~ In k (map acc_id accounts) ->
  references k (List.filter (in_range fromDate toDate) entries) ->
  let filteredEntries := List.filter (in_range fromDate toDate) entries in
  let r := buildReports entries accounts fromDate toDate in
  (exists v, computeAccountBalances filteredEntries !! k = Some v /\
             v == account_net k filteredEntries) /\
  (forall rl, In rl (revenueAccounts (pnl r) ++ expenseAccounts (pnl r)
                     ++ bs_assets (balanceSheet r) ++ bs_liabilities (balanceSheet r)
                     ++ bs_equity (balanceSheet r)) ->
     acc_id (rl_account rl) <> k) /\
  (forall tl, In tl (tb_lines (trialBalance r)) -> acc_id (tb_account tl) <> k) /\
  r = buildReports (drop_account_lines k entries) accounts fromDate toDate /\
  (forall entry line, In entry entries -> In line (entry_lines entry) ->
     line_accountId line = k ->
     In entry (journal_filteredEntries entries accounts "" "" "") /\
     line_account_label accounts line = "Account removed").
Proof.
  intros Hk Href filteredEntries r.
  assert (Hacc : forall a, In a accounts -> acc_id a <> k).
  { intros a Ha Heq. apply Hk. rewrite <- Heq. apply in_map, Ha. }
  split; [|split; [|split; [|split]]].
  - apply computeAccountBalances_spec, Href.
  - intros rl Hrl. unfold r, buildReports in Hrl. cbv zeta in Hrl. simpl in Hrl.
    repeat rewrite in_app_iff in Hrl.
    destruct Hrl as [H|[H|[H|[H|H]]]];
      apply in_map_report_line in H; destruct H as [H _];
      apply accounts_of_type_spec in H; apply Hacc, H.
  - intros tl Htl. unfold r in Htl. rewrite buildReports_trialBalance in Htl. simpl in Htl.
    apply in_map_iff in Htl. destruct Htl as [a [<- Ha]].
    rewrite (proj1 (trial_balance_line_spec _ a)). apply Hacc, Ha.
  - unfold r. apply buildReports_balances_ext. intros a Ha.
    rewrite filter_drop_account_lines. unfold get_or_zero.
    rewrite balances_drop_agree by apply Hacc, Ha. reflexivity.
  - intros entry line He Hl Hlk. split.
    + unfold journal_filteredEntries. apply filter_In. split; [exact He|]. reflexivity.
    + unfold line_account_label, find_account. rewrite Hlk.
      destruct (List.find (fun acc => String.eqb (acc_id acc) k) accounts) eqn:Hf;
        [|reflexivity].
      apply find_some in Hf. destruct Hf as [Ha Heq]. apply String.eqb_eq in Heq.
      exfalso. exact (Hacc a Ha Heq).
Qed.

(** Witness for C7: the sales account is missing from the list while an
    entry of the period credits it. *)
Lemma orphaned_account_lines_witness :
  let cash := mkAccount "cash" "Cash" "1000" Asset None false in
  let entry := mkEntry "e1" "2024-05-01" "JRN-1" None
                 [mkLine "l1" "cash" None 100 0; mkLine "l2" "sales" None 0 100] in
  ~ In "sales"%string (map acc_id [cash]) /\
  references "sales" (List.filter (in_range "2024-01-01" "2024-12-31") [entry]) /\
  (exists v, computeAccountBalances (List.filter (in_range "2024-01-01" "2024-12-31") [entry])
               !! "sales"%string = Some v /\
             v == account_net "sales" (List.filter (in_range "2024-01-01" "2024-12-31") [entry])).
Proof.
  intros cash entry.
  assert (Hk : ~ In "sales"%string (map acc_id [cash])).
  { simpl. intros [H|[]]. discriminate H. }
  assert (Hr : references "sales" (List.filter (in_range "2024-01-01" "2024-12-31") [entry])).
  { exists entry, (mkLine "l2" "sales" None 0 100). simpl.
    split; [left; reflexivity|]. split; [right; left; reflexivity|reflexivity]. }
  split; [exact Hk|]. split; [exact Hr|].
  exact (proj1 (orphaned_account_lines [entry] [cash] "2024-01-01" "2024-12-31" "sales" Hk Hr)).
Defined.

(* ================================================================== *)
(** * The stable sort *)

Section StableSort.
Context {A : Type} (le : A -> A -> bool).

Lemma insert_by_perm (x : A) (l : list A) : Permutation (insert_by le x l) (x :: l).
Proof.
  induction l as [|y l IH]; simpl; [reflexivity|].
  destruct (le x y); [reflexivity|].
  rewrite IH. apply perm_swap.
Qed.

Lemma sort_by_perm (l : list A) : Permutation (sort_by le l) l.
Proof.
  induction l as [|x l IH]; simpl; [reflexivity|].
  rewrite insert_by_perm, IH. reflexivity.
Qed.

(** Elements that [le] must keep in input order. *)
Lemma filter_insert_by (P : A -> bool) (x : A) (l : list A) :
  (forall y, P x = true -> P y = true -> le x y = true) ->
  List.filter P (insert_by le x l) = List.filter P (x :: l).
Proof.
  intros Hle. induction l as [|y l IH]; simpl; [reflexivity|].
  destruct (le x y) eqn:Hxy; [reflexivity|]. simpl. rewrite IH. simpl.
  destruct (P x) eqn:Px; destruct (P y) eqn:Py; try reflexivity.
  rewrite (Hle y eq_refl Py) in Hxy. discriminate Hxy.
Qed.

Lemma filter_sort_by (P : A -> bool) (l : list A) :
  (forall x y, P x = true -> P y = true -> le x y = true) ->
  List.filter P (sort_by le l) = List.filter P l.
Proof.
  intros Hle. induction l as [|x l IH]; simpl; [reflexivity|].
  rewrite filter_insert_by by (intros y; apply Hle). simpl. rewrite IH. reflexivity.
Qed.

Hypothesis le_trans : forall x y z, le x y = true -> le y z = true -> le x z = true.
Hypothesis le_total : forall x y, le x y = false -> le y x = true.

Lemma insert_by_sorted (x : A) (l : list A) :
  StronglySorted (fun a b => le a b = true) l ->
  StronglySorted (fun a b => le a b = true) (insert_by le x l).
Proof.
  induction l as [|y l IH]; intros Hs; simpl.
  - constructor; constructor.
  - apply StronglySorted_inv in Hs. destruct Hs as [Hs Hy].
    destruct (le x y) eqn:Hxy.
    + constructor; [constructor; assumption|].
      constructor; [exact Hxy|].
      eapply List.Forall_impl; [|exact Hy]. intros z Hz. eapply le_trans; eassumption.
    + constructor; [apply IH, Hs|].
      apply List.Forall_forall. intros z Hz.
      apply (Permutation_in _ (insert_by_perm x l)) in Hz. destruct Hz as [<-|Hz].
      * apply le_total, Hxy.
      * rewrite List.Forall_forall in Hy. apply Hy, Hz.
Qed.

Lemma sort_by_sorted (l : list A) :
  StronglySorted (fun a b => le a b = true) (sort_by le l).
Proof.
  induction l as [|x l IH]; simpl; [constructor|]. apply insert_by_sorted, IH.
Qed.
End StableSort.

Lemma string_leb_trans (s1 s2 s3 : string) :
  String.leb s1 s2 = true -> String.leb s2 s3 = true -> String.leb s1 s3 = true.
Proof.
  unfold String.leb.
  revert s2 s3; induction s1 as [|a s1 IH]; intros [|b s2] [|c s3]; simpl; try congruence.
  unfold Ascii.compare.
  destruct (N.compare_spec (N_of_ascii a) (N_of_ascii b)) as [Hab|Hab|Hab];
  destruct (N.compare_spec (N_of_ascii b) (N_of_ascii c)) as [Hbc|Hbc|Hbc];
  destruct (N.compare_spec (N_of_ascii a) (N_of_ascii c)) as [Hac|Hac|Hac];
  try congruence; try lia.
  apply IH.
Qed.

Lemma date_asc_trans (x y z : JournalEntry) :
  date_asc x y = true -> date_asc y z = true -> date_asc x z = true.
Proof. apply string_leb_trans. Qed.

Lemma date_asc_total (x y : JournalEntry) : date_asc x y = false -> date_asc y x = true.
Proof.
  unfold date_asc. intros H. destruct (String.leb_total (entry_date x) (entry_date y)); congruence.
Qed.

Lemma date_asc_refl (x y : JournalEntry) : entry_date x = entry_date y -> date_asc x y = true.
Proof.
  unfold date_asc, String.leb. intros H. rewrite H.
  pose proof (String.compare_antisym (entry_date y) (entry_date y)) as Ha.
  destruct (String.compare (entry_date y) (entry_date y)); simpl in Ha; congruence.
Qed.

(* ================================================================== *)
(** * Per-account ledger *)

(** The (entry, line) pairs of [account] in [entries], in order. *)
Definition ledger_postings (account : Account) (entries : list JournalEntry)
    : list (JournalEntry * JournalLine) :=
  flat_map (fun entry => map (pair entry) (account_lines account entry)) entries.

Fixpoint running_rows (account : Account) (balance : Q)
    (ps : list (JournalEntry * JournalLine)) : list LedgerEntry :=
  match ps with
  | [] => []
  | (entry, line) :: ps' =>
      let b := balance + (line_debit line - line_credit line) in
      ledger_row account entry line b :: running_rows account b ps'
  end.

Fixpoint running_final (balance : Q) (ps : list (JournalEntry * JournalLine)) : Q :=
  match ps with
  | [] => balance
  | (_, line) :: ps' => running_final (balance + (line_debit line - line_credit line)) ps'
  end.

(** The row without its running balance, and the same data read from an
    entry and one of its lines. *)
Definition ledger_posting (r : LedgerEntry) :=
  (le_accountId r, le_accountName r, le_date r, le_description r, le_reference r,
   le_debit r, le_credit r).

Definition line_posting (account : Account) (entry : JournalEntry) (line : JournalLine) :=
  (acc_id account, acc_name account, entry_date entry, line_or_narration entry line,
   entry_reference entry, line_debit line, line_credit line).

Lemma running_rows_app (account : Account) (b : Q) (ps1 ps2 : list (JournalEntry * JournalLine)) :
  running_rows account b (ps1 ++ ps2)
  = running_rows account b ps1 ++ running_rows account (running_final b ps1) ps2.
Proof.
  revert b; induction ps1 as [|[e l] ps1 IH]; intros b; simpl; [reflexivity|].
  rewrite IH. reflexivity.
Qed.

Lemma running_final_app (b : Q) (ps1 ps2 : list (JournalEntry * JournalLine)) :
  running_final b (ps1 ++ ps2) = running_final (running_final b ps1) ps2.
Proof.
  revert b; induction ps1 as [|[e l] ps1 IH]; intros b; simpl; [reflexivity|]. apply IH.
Qed.

Lemma ledger_lines_fold (account : Account) (entry : JournalEntry) (lines : list JournalLine)
    (acc : list LedgerEntry) (b : Q) :
  fold_left (ledger_line_step account entry) lines (acc, b)
  = (acc ++ running_rows account b (map (pair entry) lines),
     running_final b (map (pair entry) lines)).
Proof.
  revert acc b; induction lines as [|line lines IH]; intros acc b; simpl.
  - rewrite app_nil_r. reflexivity.
  - unfold ledger_line_step at 2. simpl. rewrite IH, <- app_assoc. reflexivity.
Qed.

Lemma ledger_fold (account : Account) (entries : list JournalEntry)
    (acc : list LedgerEntry) (b : Q) :
  fold_left (ledger_entry_step account) entries (acc, b)
  = (acc ++ running_rows account b (ledger_postings account entries),
     running_final b (ledger_postings account entries)).
Proof.
  revert acc b; induction entries as [|entry entries IH]; intros acc b; simpl.
  - rewrite app_nil_r. reflexivity.
  - unfold ledger_entry_step at 2. rewrite ledger_lines_fold, IH.
    rewrite running_rows_app, running_final_app, app_assoc. reflexivity.
Qed.

Lemma buildLedgerEntries_rows (entries : list JournalEntry) (account : Account)
    (fromDate toDate : string) :
  buildLedgerEntries entries account fromDate toDate
  = running_rows account 0
      (ledger_postings account (sort_by date_asc (List.filter (in_range fromDate toDate) entries))).
Proof. unfold buildLedgerEntries. rewrite ledger_fold. reflexivity. Qed.

Lemma running_rows_dates (account : Account) (b : Q) (ps : list (JournalEntry * JournalLine)) :
  map le_date (running_rows account b ps) = map (fun p => entry_date (fst p)) ps.
Proof.
  revert b; induction ps as [|[e l] ps IH]; intros b; simpl; [reflexivity|].
  rewrite IH. reflexivity.
Qed.

Lemma running_rows_filter_date (account : Account) (b : Q) (d : string)
    (ps : list (JournalEntry * JournalLine)) :
  map ledger_posting (List.filter (fun r => String.eqb (le_date r) d) (running_rows account b ps))
  = map (fun p => line_posting account (fst p) (snd p))
        (List.filter (fun p => String.eqb (entry_date (fst p)) d) ps).
Proof.
  revert b; induction ps as [|[e l] ps IH]; intros b; simpl; [reflexivity|].
  destruct (String.eqb (entry_date e) d); simpl; rewrite IH; reflexivity.
Qed.

Lemma filter_pair_date (d : string) (entry : JournalEntry) (lines : list JournalLine) :
  List.filter (fun p => String.eqb (entry_date (fst p)) d) (map (pair entry) lines)
  = if String.eqb (entry_date entry) d then map (pair entry) lines else [].
Proof.
  induction lines as [|l lines IH]; simpl; [destruct (String.eqb _ d); reflexivity|].
  rewrite IH. destruct (String.eqb (entry_date entry) d); reflexivity.
Qed.

Lemma filter_postings_date (account : Account) (d : string) (entries : list JournalEntry) :
  List.filter (fun p => String.eqb (entry_date (fst p)) d) (ledger_postings account entries)
  = ledger_postings account (List.filter (fun e => String.eqb (entry_date e) d) entries).
Proof.
  unfold ledger_postings.
  induction entries as [|e entries IH]; simpl; [reflexivity|].
  rewrite List.filter_app, filter_pair_date, IH.
  destruct (String.eqb (entry_date e) d); reflexivity.
Qed.

Lemma running_rows_balance_first (account : Account) (b : Q)
    (ps : list (JournalEntry * JournalLine)) (r : LedgerEntry) :
  nth_error (running_rows account b ps) 0 = Some r ->
  le_balance r = b + (le_debit r - le_credit r).
Proof.
  destruct ps as [|[e l] ps]; simpl; [discriminate|]. intros H; injection H as <-.
  reflexivity.
Qed.

Lemma running_rows_balance_next (account : Account) (b : Q)
    (ps : list (JournalEntry * JournalLine)) (i : nat) (r r' : LedgerEntry) :
  nth_error (running_rows account b ps) i = Some r ->
  nth_error (running_rows account b ps) (S i) = Some r' ->
  le_balance r' = le_balance r + (le_debit r' - le_credit r').
Proof.
  revert b i; induction ps as [|[e l] ps IH]; intros b i; simpl; [destruct i; discriminate|].
  destruct i as [|i].
  - intros H; injection H as <-. simpl.
    intros H'. apply running_rows_balance_first in H'. exact H'.
  - apply IH.
Qed.

Lemma string_leb_refl (s : string) : String.leb s s = true.
Proof.
  unfold String.leb. pose proof (String.compare_antisym s s) as Ha.
  destruct (String.compare s s); simpl in Ha; congruence.
Qed.

Lemma StronglySorted_app {A} (R : A -> A -> Prop) (l1 l2 : list A) :
  StronglySorted R l1 -> StronglySorted R l2 ->
  (forall x y, In x l1 -> In y l2 -> R x y) -> StronglySorted R (l1 ++ l2).
Proof.
  induction l1 as [|x l1 IH]; intros H1 H2 H12; simpl; [exact H2|].
  apply StronglySorted_inv in H1. destruct H1 as [H1 Hx].
  constructor.
  - apply IH; [exact H1|exact H2|]. intros a b Ha Hb. apply H12; [right|]; assumption.
  - apply List.Forall_forall. intros y Hy. apply in_app_or in Hy. destruct Hy as [Hy|Hy].
    + rewrite List.Forall_forall in Hx. apply Hx, Hy.
    + apply H12; [left; reflexivity|exact Hy].
Qed.

Lemma in_postings_dates (account : Account) (entries : list JournalEntry) (d : string) :
  In d (map (fun p => entry_date (fst p)) (ledger_postings account entries)) ->
  exists entry, In entry entries /\ entry_date entry = d.
Proof.
  intros H. apply in_map_iff in H. destruct H as [[e l] [Hd Hp]]. simpl in Hd.
  unfold ledger_postings in Hp. apply in_flat_map in Hp. destruct Hp as [e' [He' Hp]].
  apply in_map_iff in Hp. destruct Hp as [l' [Hp _]]. injection Hp as -> ->.
  exists e. auto.
Qed.

Lemma postings_dates_sorted (account : Account) (entries : list JournalEntry) :
  StronglySorted (fun a b => date_asc a b = true) entries ->
  StronglySorted (fun d1 d2 => String.leb d1 d2 = true)
    (map (fun p => entry_date (fst p)) (ledger_postings account entries)).
Proof.
  induction entries as [|e entries IH]; intros Hs; simpl; [constructor|].
  apply StronglySorted_inv in Hs. destruct Hs as [Hs He].
  unfold ledger_postings in *; simpl. rewrite map_app.
  apply StronglySorted_app; [| apply IH, Hs |].
  - rewrite map_map. simpl. induction (account_lines account e) as [|l ls IHl]; simpl;
      constructor; [exact IHl|].
    apply List.Forall_forall. intros y Hy. apply in_map_iff in Hy.
    destruct Hy as [? [<- _]]. apply string_leb_refl.
  - intros x y Hx Hy.
    rewrite map_map in Hx. simpl in Hx. apply in_map_iff in Hx. destruct Hx as [? [<- _]].
    apply in_postings_dates in Hy. destruct Hy as [e' [He' <-]].
    rewrite List.Forall_forall in He. apply (He e' He').
Qed.

Lemma string_ltb_leb (a b : string) : String.ltb a b = true -> String.leb a b = true.
Proof. unfold String.ltb, String.leb. destruct (String.compare a b); congruence. Qed.

Lemma string_ltb_not_leb (a b : string) : String.ltb a b = true -> String.leb b a = false.
Proof.
  unfold String.ltb, String.leb. rewrite (String.compare_antisym b a).
  destruct (String.compare a b); simpl; congruence.
Qed.

Lemma ledger_rows_per_date (entries : list JournalEntry) (account : Account)
    (fromDate toDate d : string) :
  map ledger_posting
      (List.filter (fun r => String.eqb (le_date r) d)
                   (buildLedgerEntries entries account fromDate toDate))
  = map (fun p => line_posting account (fst p) (snd p))
        (ledger_postings account
           (List.filter (fun e => String.eqb (entry_date e) d)
                        (List.filter (in_range fromDate toDate) entries))).
Proof.
  rewrite buildLedgerEntries_rows, running_rows_filter_date, filter_postings_date.
  rewrite (filter_sort_by date_asc); [reflexivity|].
  intros x y Hx Hy. apply String.eqb_eq in Hx, Hy. apply date_asc_refl. congruence.
Qed.

(** Claim C4. The rows of [buildLedgerEntries entries account fromDate
    toDate] are in ascending date order; the rows of any one date are,
    in document order, the lines of [account] in the entries of that date
    with [fromDate <= date <= toDate] (so the rows are exactly the
    account's lines of the period, in a stable ascending sort by date);
    the first row's balance is [0 + (debit - credit)] and each later row's
    balance is the previous one plus [(debit - credit)]. For entries
    dated [d1 < d2 < d3] (given in the order d3, d1, d2) whose lines on
    the account are (100, 0), (0, 40) and (0, 10), the rows are dated
    d1, d2, d3 with running balances 100, 60, 50. *)
Theorem ledger_entries_spec (entries : list JournalEntry) (account : Account)
    (fromDate toDate : string) :
  (let rows := buildLedgerEntries entries account fromDate toDate in
   StronglySorted (fun d1 d2 => String.leb d1 d2 = true) (map le_date rows) /\
   (forall d,
      map ledger_posting (List.filter (fun r => String.eqb (le_date r) d) rows)
      = flat_map (fun entry =>
                    map (line_posting account entry)
                        (List.filter (fun line => String.eqb (line_accountId line) (acc_id account))
                                     (entry_lines entry)))
                 (List.filter (fun entry => String.eqb (entry_date entry) d)
                    (List.filter (fun entry => String.leb fromDate (entry_date entry)
                                               && String.leb (entry_date entry) toDate)
                                 entries))) /\
   (forall r, nth_error rows 0 = Some r -> le_balance r = 0 + (le_debit r - le_credit r)) /\
   (forall i r r', nth_error rows i = Some r -> nth_error rows (S i) = Some r' ->
      le_balance r' = le_balance r + (le_debit r' - le_credit r'))) /\
  (forall (d1 d2 d3 : string) (e1 e2 e3 : JournalEntry) (i1 i2 i3 : string)
          (s1 s2 s3 : option string),
   String.ltb d1 d2 = true -> String.ltb d2 d3 = true ->
   entry_date e1 = d1 -> entry_date e2 = d2 -> entry_date e3 = d3 ->
   in_range fromDate toDate e1 = true -> in_range fromDate toDate e2 = true ->
   in_range fromDate toDate e3 = true ->
   List.filter (fun line => String.eqb (line_accountId line) (acc_id account)) (entry_lines e1)
     = [mkLine i1 (acc_id account) s1 100 0] ->
   List.filter (fun line => String.eqb (line_accountId line) (acc_id account)) (entry_lines e2)
     = [mkLine i2 (acc_id account) s2 0 40] ->
   List.filter (fun line => String.eqb (line_accountId line) (acc_id account)) (entry_lines e3)
     = [mkLine i3 (acc_id account) s3 0 10] ->
   exists r1 r2 r3,
     buildLedgerEntries [e3; e1; e2] account fromDate toDate = [r1; r2; r3] /\
     le_date r1 = d1 /\ le_date r2 = d2 /\ le_date r3 = d3 /\
     le_balance r1 == 100 /\ le_balance r2 == 60 /\ le_balance r3 == 50).
Proof.
  split.
  - cbn zeta. split; [|split; [|split]].
    + rewrite buildLedgerEntries_rows, running_rows_dates.
      apply postings_dates_sorted, sort_by_sorted; [apply date_asc_trans|apply date_asc_total].
    + intros d. rewrite ledger_rows_per_date. unfold ledger_postings.
      rewrite flat_map_concat_map, concat_map, map_map, <- flat_map_concat_map.
      apply flat_map_ext. intros e. rewrite map_map. reflexivity.
    + intros r. rewrite buildLedgerEntries_rows. apply running_rows_balance_first.
    + intros i r r'. rewrite buildLedgerEntries_rows. apply running_rows_balance_next.
  - intros d1 d2 d3 e1 e2 e3 i1 i2 i3 s1 s2 s3 H12 H23 Hd1 Hd2 Hd3 Hin1 Hin2 Hin3 Hl1 Hl2 Hl3.
    assert (A12 : date_asc e1 e2 = true).
    { unfold date_asc. rewrite Hd1, Hd2. apply string_ltb_leb, H12. }
    assert (A32 : date_asc e3 e2 = false).
    { unfold date_asc. rewrite Hd3, Hd2. apply string_ltb_not_leb, H23. }
    assert (A31 : date_asc e3 e1 = false).
    { unfold date_asc. rewrite Hd3, Hd1. destruct (String.leb d3 d1) eqn:H31; [|reflexivity].
      pose proof (string_leb_trans _ _ _ H31 (string_ltb_leb _ _ H12)) as H32.
      rewrite (string_ltb_not_leb _ _ H23) in H32. discriminate H32. }
    rewrite buildLedgerEntries_rows. cbn [List.filter]. rewrite Hin3, Hin1, Hin2.
    cbn [sort_by fold_right insert_by]. rewrite A12. cbn [insert_by].
    rewrite A31. cbn [insert_by]. rewrite A32.
    unfold ledger_postings, account_lines. cbn [flat_map]. rewrite Hl1, Hl2, Hl3.
    cbn [map app running_rows].
    do 3 eexists. split; [reflexivity|]. cbn [le_date le_balance ledger_row].
    rewrite Hd1, Hd2, Hd3. split; [reflexivity|]. split; [reflexivity|]. split; [reflexivity|].
    vm_compute. split; [reflexivity|]. split; reflexivity.
Qed.

Lemma running_rows_nil (account : Account) (b : Q) (ps : list (JournalEntry * JournalLine)) :
  running_rows account b ps = [] -> ps = [].
Proof. destruct ps as [|[e l] ps]; simpl; [reflexivity|discriminate]. Qed.

Lemma running_rows_last (account : Account) (b : Q) (ps : list (JournalEntry * JournalLine))
    (pre : list LedgerEntry) (r : LedgerEntry) :
  running_rows account b ps = pre ++ [r] -> le_balance r = running_final b ps.
Proof.
  revert b pre; induction ps as [|[e l] ps IH]; intros b pre; simpl.
  - destruct pre; discriminate.
  - destruct pre as [|x pre]; simpl; intros H; injection H as Hx Hrest.
    + apply running_rows_nil in Hrest. subst. reflexivity.
    + apply IH in Hrest. exact Hrest.
Qed.

Lemma running_final_sum (b : Q) (ps : list (JournalEntry * JournalLine)) :
  running_final b ps == b + qsum (fun p => line_net (snd p)) ps.
Proof.
  revert b; induction ps as [|[e l] ps IH]; intros b; simpl; [ring|].
  rewrite IH. unfold line_net. ring.
Qed.

Lemma qsum_perm {A} (f : A -> Q) (l l' : list A) : Permutation l l' -> qsum f l == qsum f l'.
Proof.
  induction 1; simpl.
  - reflexivity.
  - rewrite IHPermutation. reflexivity.
  - ring.
  - rewrite IHPermutation1, IHPermutation2. reflexivity.
Qed.

Lemma qsum_postings (account : Account) (entries : list JournalEntry) :
  qsum (fun p => line_net (snd p)) (ledger_postings account entries)
  == account_net (acc_id account) entries.
Proof.
  unfold ledger_postings, account_net.
  induction entries as [|e entries IH]; simpl; [reflexivity|].
  rewrite qsum_app, IH, qsum_map. reflexivity.
Qed.

(** Claim C9. When [buildLedgerEntries entries account fromDate toDate]
    is non-empty, the balance of its last row equals the value that
    [computeAccountBalances] assigns to the account's id over the entries
    of the same date range. *)
Theorem ledger_final_balance_agrees (entries : list JournalEntry) (account : Account)
    (fromDate toDate : string) (pre : list LedgerEntry) (r : LedgerEntry) :
  buildLedgerEntries entries account fromDate toDate = pre ++ [r] ->
  exists v,
    computeAccountBalances (List.filter (in_range fromDate toDate) entries) !! acc_id account
    = Some v /\ le_balance r == v.
Proof.
  rewrite buildLedgerEntries_rows. intros Hrows.
  set (filteredEntries := List.filter (in_range fromDate toDate) entries) in *.
  set (ps := ledger_postings account (sort_by date_asc filteredEntries)) in *.
  assert (Href : references (acc_id account) filteredEntries).
  { destruct ps as [|[e l] ps'] eqn:Hps.
    - simpl in Hrows. destruct pre; discriminate.
    - assert (Hin : In (e, l) ps) by (rewrite Hps; left; reflexivity).
      unfold ps, ledger_postings in Hin. apply in_flat_map in Hin.
      destruct Hin as [e' [He' Hin]]. apply in_map_iff in Hin.
      destruct Hin as [l' [Hp Hl']]. injection Hp as -> ->.
      unfold account_lines in Hl'. apply filter_In in Hl'. destruct Hl' as [Hl Hk].
      apply String.eqb_eq in Hk.
      exists e, l. split; [|split; assumption].
      apply (Permutation_in _ (sort_by_perm date_asc filteredEntries)), He'. }
  destruct (proj1 (computeAccountBalances_spec filteredEntries (acc_id account)) Href)
    as [v [Hv Hnet]].
  exists v. split; [exact Hv|].
  rewrite (running_rows_last _ _ _ _ _ Hrows), running_final_sum, Hnet.
  unfold ps. rewrite qsum_postings. unfold account_net.
  rewrite (qsum_perm _ _ _ (sort_by_perm date_asc filteredEntries)). ring.
Qed.

(* ================================================================== *)
(** * Dashboard monthly series and recent entries *)

Lemma map_get_set {V} (k k' : string) (v : V) (m : list (string * V)) :
  map_get k (map_set k' v m) = if String.eqb k k' then Some v else map_get k m.
Proof.
  induction m as [|[k1 v1] m IH]; simpl.
  - destruct (String.eqb k k'); reflexivity.
  - destruct (String.eqb k' k1) eqn:H1; simpl.
    + apply String.eqb_eq in H1. subst k1.
      destruct (String.eqb k k'); reflexivity.
    + rewrite IH. destruct (String.eqb k k1) eqn:H2; [|reflexivity].
      apply String.eqb_eq in H2. subst k1.
      destruct (String.eqb k k') eqn:H3; [|reflexivity].
      apply String.eqb_eq in H3. subst k'. rewrite String.eqb_refl in H1. discriminate.
Qed.

Lemma map_set_keys {V} (k : string) (v : V) (m : list (string * V)) :
  map fst (map_set k v m) =
  match map_get k m with Some _ => map fst m | None => map fst m ++ [k] end.
Proof.
  induction m as [|[k1 v1] m IH]; simpl; [reflexivity|].
  destruct (String.eqb k k1) eqn:H; simpl; [reflexivity|].
  rewrite IH. destruct (map_get k m); reflexivity.
Qed.

Lemma map_get_None_notin {V} (k : string) (m : list (string * V)) :
  map_get k m = None <-> ~ In k (map fst m).
Proof.
  induction m as [|[k1 v1] m IH]; simpl; [tauto|].
  destruct (String.eqb k k1) eqn:H.
  - apply String.eqb_eq in H. subst. split; [discriminate|]. intros Hn. exfalso. apply Hn. left. reflexivity.
  - apply String.eqb_neq in H. rewrite IH. split; intros Hn; [intros [Heq|Hin]; [congruence|tauto]|tauto].
Qed.

Lemma map_set_NoDup {V} (k : string) (v : V) (m : list (string * V)) :
  List.NoDup (map fst m) -> List.NoDup (map fst (map_set k v m)).
Proof.
  intros Hnd. rewrite map_set_keys. destruct (map_get k m) eqn:Hg; [exact Hnd|].
  apply map_get_None_notin in Hg.
  apply (Permutation_NoDup (Permutation_cons_append (map fst m) k)).
  constructor; assumption.
Qed.

Lemma map_get_In {V} (k : string) (v : V) (m : list (string * V)) :
  map_get k m = Some v -> In (k, v) m.
Proof.
  induction m as [|[k1 v1] m IH]; simpl; [discriminate|].
  destruct (String.eqb k k1) eqn:H.
  - apply String.eqb_eq in H. subst. intros [= ->]. left. reflexivity.
  - intros Hg. right. apply IH, Hg.
Qed.

Lemma In_map_get {V} (k : string) (v : V) (m : list (string * V)) :
  List.NoDup (map fst m) -> In (k, v) m -> map_get k m = Some v.
Proof.
  induction m as [|[k1 v1] m IH]; simpl; [intros _ []|].
  intros Hnd Hin. inversion Hnd as [|? ? Hk1 Hnd']; subst.
  destruct Hin as [[= -> ->]|Hin].
  - rewrite String.eqb_refl. reflexivity.
  - destruct (String.eqb k k1) eqn:H.
    + apply String.eqb_eq in H. subst k1. exfalso. apply Hk1.
      apply in_map_iff. exists (k, v). auto.
    + apply IH; assumption.
Qed.

Lemma qsum_map_set {V} (f : V -> Q) (k : string) (v : V) (m : list (string * V)) :
  qsum (fun p => f (snd p)) (map_set k v m)
  == qsum (fun p => f (snd p)) m
     - match map_get k m with Some b => f b | None => 0 end + f v.
Proof.
  induction m as [|[k1 v1] m IH]; simpl; [ring|].
  destruct (String.eqb k k1) eqn:H; simpl; [ring|].
  rewrite IH. ring.
Qed.

Lemma qsum_filter {A} (f : A -> Q) (p : A -> bool) (l : list A) :
  qsum f (List.filter p l) == qsum (fun x => if p x then f x else 0) l.
Proof.
  induction l as [|x l IH]; simpl; [reflexivity|].
  destruct (p x); simpl; rewrite IH; ring.
Qed.

Lemma Permutation_list_filter {A} (p : A -> bool) (l l' : list A) :
  Permutation l l' -> Permutation (List.filter p l) (List.filter p l').
Proof.
  induction 1; simpl.
  - constructor.
  - destruct (p x); [constructor|]; assumption.
  - destruct (p x), (p y); try constructor; reflexivity.
  - econstructor; eassumption.
Qed.

Lemma list_filter_none {A} (p : A -> bool) (l : list A) :
  (forall x, In x l -> p x = false) -> List.filter p l = [].
Proof.
  induction l as [|x l IH]; intros H; simpl; [reflexivity|].
  rewrite (H x (or_introl eq_refl)). apply IH. intros y Hy. apply H. right. exact Hy.
Qed.

(** Revenue and expense of the entries of month [k] in [ps]. *)
Definition month_revenue (ra ea : list string) (k : string) (ps : list JournalEntry) : Q :=
  qsum (fun e => fst (entry_revenue_expense ra ea e))
       (List.filter (fun e => String.eqb (monthKey e) k) ps).

Definition month_expense (ra ea : list string) (k : string) (ps : list JournalEntry) : Q :=
  qsum (fun e => snd (entry_revenue_expense ra ea e))
       (List.filter (fun e => String.eqb (monthKey e) k) ps).

Lemma month_revenue_snoc (ra ea : list string) (k : string) (ps : list JournalEntry) (e : JournalEntry) :
  month_revenue ra ea k (ps ++ [e]) ==
  month_revenue ra ea k ps + if String.eqb (monthKey e) k then fst (entry_revenue_expense ra ea e) else 0.
Proof.
  unfold month_revenue. rewrite List.filter_app, qsum_app. simpl.
  destruct (String.eqb (monthKey e) k); simpl; ring.
Qed.

Lemma month_expense_snoc (ra ea : list string) (k : string) (ps : list JournalEntry) (e : JournalEntry) :
  month_expense ra ea k (ps ++ [e]) ==
  month_expense ra ea k ps + if String.eqb (monthKey e) k then snd (entry_revenue_expense ra ea e) else 0.
Proof.
  unfold month_expense. rewrite List.filter_app, qsum_app. simpl.
  destruct (String.eqb (monthKey e) k); simpl; ring.
Qed.

(** The loop invariant of [buildDashboardMetrics]. *)
Record metrics_inv (ra ea : list string) (ps : list JournalEntry)
    (st : list (string * MonthlyMetric) * Q * Q) : Prop := {
  mi_nodup : List.NoDup (map fst (fst (fst st)));
  mi_keys : forall k, map_get k (fst (fst st)) = None <-> (forall e, In e ps -> monthKey e <> k);
  mi_bucket : forall k b, map_get k (fst (fst st)) = Some b ->
    mm_revenue b == month_revenue ra ea k ps /\ mm_expense b == month_expense ra ea k ps;
  mi_sum_rev : qsum (fun p => mm_revenue (snd p)) (fst (fst st)) == snd (fst st);
  mi_sum_exp : qsum (fun p => mm_expense (snd p)) (fst (fst st)) == snd st;
  mi_rev : snd (fst st) == qsum (fun e => fst (entry_revenue_expense ra ea e)) ps;
  mi_exp : snd st == qsum (fun e => snd (entry_revenue_expense ra ea e)) ps
}.

Lemma metrics_inv_nil (ra ea : list string) : metrics_inv ra ea [] ([], 0, 0).
Proof.
  constructor; simpl.
  - constructor.
  - intros k. split; [intros _ e []|reflexivity].
  - discriminate.
  - reflexivity.
  - reflexivity.
  - reflexivity.
  - reflexivity.
Qed.

Lemma metrics_step_inv (month_label : string -> string) (ra ea : list string)
    (ps : list JournalEntry) (st : list (string * MonthlyMetric) * Q * Q) (e : JournalEntry) :
  metrics_inv ra ea ps st ->
  metrics_inv ra ea (ps ++ [e]) (metrics_step month_label ra ea st e).
Proof.
  destruct st as [[agg rv] ex]. intros [Hnd Hkeys Hb Hsr Hse Hrv Hex]; simpl in *.
  unfold metrics_step.
  set (key := monthKey e).
  set (er := entry_revenue_expense ra ea e).
  (* the bucket before the update, as seen by the code *)
  set (b0 := match map_get key agg with
             | Some b => b
             | None => mkMonthlyMetric (month_label (entry_date e)) 0 0 0 end).
  set (b1 := mkMonthlyMetric (mm_label b0) (mm_revenue b0 + fst er) (mm_expense b0 + snd er)
               (mm_revenue b0 + fst er - (mm_expense b0 + snd er))).
  set (agg1 := match map_get key agg with
               | Some _ => agg
               | None => map_set key (mkMonthlyMetric (month_label (entry_date e)) 0 0 0) agg
               end).
  assert (Hget1 : map_get key agg1 = Some b0).
  { unfold agg1, b0. destruct (map_get key agg) eqn:Hg; [exact Hg|].
    rewrite map_get_set, String.eqb_refl. reflexivity. }
  rewrite Hget1. fold b1.
  assert (Hnd1 : List.NoDup (map fst agg1)).
  { unfold agg1. destruct (map_get key agg); [exact Hnd|apply map_set_NoDup, Hnd]. }
  assert (Hget : forall k, map_get k (map_set key b1 agg1) =
                           if String.eqb k key then Some b1 else map_get k agg).
  { intros k. rewrite map_get_set. destruct (String.eqb k key) eqn:Hk; [reflexivity|].
    unfold agg1. destruct (map_get key agg); [reflexivity|].
    rewrite map_get_set, Hk. reflexivity. }
  assert (Hb0 : map_get key agg = None -> mm_revenue b0 == 0 /\ mm_expense b0 == 0).
  { unfold b0. intros ->. simpl. split; reflexivity. }
  assert (Hb0' : forall b, map_get key agg = Some b -> b0 = b).
  { unfold b0. intros b ->. reflexivity. }
  constructor; simpl.
  - apply map_set_NoDup, Hnd1.
  - intros k. rewrite Hget. destruct (String.eqb k key) eqn:Hk.
    + apply String.eqb_eq in Hk. split; [discriminate|].
      intros H. exfalso. apply (H e); [apply in_or_app; right; left; reflexivity|].
      rewrite Hk. reflexivity.
    + apply String.eqb_neq in Hk. rewrite Hkeys. split.
      * intros H x Hx. apply in_app_or in Hx. destruct Hx as [Hx|[<-|[]]]; [apply H, Hx|].
        fold key. intros ->. apply Hk. reflexivity.
      * intros H x Hx. apply H, in_or_app. left. exact Hx.
  - intros k b. rewrite Hget. rewrite month_revenue_snoc, month_expense_snoc.
    destruct (String.eqb k key) eqn:Hk.
    + intros [= <-]. apply String.eqb_eq in Hk. subst k. fold key. rewrite String.eqb_refl.
      unfold b1; simpl. fold er.
      destruct (map_get key agg) eqn:Hg.
      * rewrite (Hb0' m eq_refl). destruct (Hb key m Hg) as [H1 H2].
        rewrite H1, H2. split; reflexivity.
      * destruct (Hb0 eq_refl) as [H1 H2]. rewrite H1, H2.
        assert (Hz : forall e', In e' ps -> monthKey e' <> key) by (apply Hkeys; exact Hg).
        unfold month_revenue, month_expense.
        rewrite list_filter_none by
          (intros x Hx; apply Bool.not_true_iff_false; intros Hx'; apply String.eqb_eq in Hx';
           apply (Hz x Hx Hx')).
        simpl. split; ring.
    + intros Hg. destruct (Hb k b Hg) as [H1 H2].
      assert (Hke : String.eqb (monthKey e) k = false).
      { apply String.eqb_neq. apply String.eqb_neq in Hk. fold key. congruence. }
      rewrite Hke, H1, H2. split; ring.
  - rewrite qsum_map_set, Hget1. unfold b1; simpl.
    assert (Hs1 : qsum (fun p => mm_revenue (snd p)) agg1 == qsum (fun p => mm_revenue (snd p)) agg + 0).
    { unfold agg1. destruct (map_get key agg) eqn:Hg; [ring|].
      rewrite qsum_map_set, Hg. simpl. ring. }
    rewrite Hs1, Hsr. fold er. ring.
  - rewrite qsum_map_set, Hget1. unfold b1; simpl.
    assert (Hs1 : qsum (fun p => mm_expense (snd p)) agg1 == qsum (fun p => mm_expense (snd p)) agg + 0).
    { unfold agg1. destruct (map_get key agg) eqn:Hg; [ring|].
      rewrite qsum_map_set, Hg. simpl. ring. }
    rewrite Hs1, Hse. fold er. ring.
  - rewrite qsum_app, Hrv. simpl. fold er. ring.
  - rewrite qsum_app, Hex. simpl. fold er. ring.
Qed.

Lemma metrics_fold_inv (month_label : string -> string) (ra ea : list string)
    (l ps : list JournalEntry) (st : list (string * MonthlyMetric) * Q * Q) :
  metrics_inv ra ea ps st ->
  metrics_inv ra ea (ps ++ l) (fold_left (metrics_step month_label ra ea) l st).
Proof.
  revert ps st; induction l as [|e l IH]; intros ps st H; simpl.
  - rewrite app_nil_r. exact H.
  - replace (ps ++ e :: l) with ((ps ++ [e]) ++ l) by (rewrite <- app_assoc; reflexivity).
    apply IH, metrics_step_inv, H.
Qed.

Lemma metrics_loop_inv (month_label : string -> string) (entries : list JournalEntry)
    (accounts : list Account) :
  metrics_inv (map acc_id (accounts_of_type Revenue accounts))
              (map acc_id (accounts_of_type Expense accounts))
              (sort_by date_desc entries) (metrics_loop month_label entries accounts).
Proof.
  unfold metrics_loop. apply (metrics_fold_inv month_label _ _ _ []), metrics_inv_nil.
Qed.

Lemma string_leb_total_false (a b : string) : String.leb a b = false -> String.leb b a = true.
Proof. intros H. destruct (String.leb_total a b); congruence. Qed.

Lemma key_asc_trans (x y z : string * MonthlyMetric) :
  key_asc x y = true -> key_asc y z = true -> key_asc x z = true.
Proof. apply string_leb_trans. Qed.

Lemma key_asc_total (x y : string * MonthlyMetric) : key_asc x y = false -> key_asc y x = true.
Proof. apply string_leb_total_false. Qed.

Lemma date_desc_trans (x y z : JournalEntry) :
  date_desc x y = true -> date_desc y z = true -> date_desc x z = true.
Proof. unfold date_desc. intros H1 H2. eapply string_leb_trans; eassumption. Qed.

Lemma date_desc_total (x y : JournalEntry) : date_desc x y = false -> date_desc y x = true.
Proof. apply string_leb_total_false. Qed.

Lemma string_leb_neq_ltb (a b : string) :
  String.leb a b = true -> a <> b -> String.ltb a b = true.
Proof.
  unfold String.leb, String.ltb. intros H Hne.
  destruct (String.compare a b) eqn:Hc; try reflexivity; try discriminate.
  apply String.compare_eq_iff in Hc. contradiction.
Qed.

Lemma StronglySorted_strict {V} (l : list (string * V)) :
  StronglySorted (fun p q => String.leb (fst p) (fst q) = true) l ->
  List.NoDup (map fst l) ->
  StronglySorted (fun p q => String.ltb (fst p) (fst q) = true) l.
Proof.
  induction 1 as [|a l Hs IH Hall]; intros Hnd; constructor.
  - apply IH. inversion Hnd; assumption.
  - inversion Hnd as [|? ? Hna Hnd']; subst.
    apply List.Forall_forall. intros b Hb. rewrite List.Forall_forall in Hall.
    apply string_leb_neq_ltb; [apply Hall, Hb|].
    intros Heq. apply Hna. rewrite Heq. apply in_map, Hb.
Qed.

Lemma StronglySorted_app_inv {A} (R : A -> A -> Prop) (l1 l2 : list A) (x y : A) :
  StronglySorted R (l1 ++ l2) -> In x l1 -> In y l2 -> R x y.
Proof.
  induction l1 as [|a l1 IH]; simpl; [intros _ []|].
  intros Hs Hx Hy. apply StronglySorted_inv in Hs. destruct Hs as [Hs Ha].
  destruct Hx as [<-|Hx].
  - rewrite List.Forall_forall in Ha. apply Ha, in_or_app. right. exact Hy.
  - apply IH; assumption.
Qed.

Lemma refresh_profit_fst (p : string * MonthlyMetric) : fst (refresh_profit p) = fst p.
Proof. destruct p; reflexivity. Qed.

Lemma dashboard_summary_loop (month_label : string -> string) (entries : list JournalEntry)
    (accounts : list Account) :
  dm_summary (buildDashboardMetrics month_label entries accounts) = dashboard_summary entries accounts.
Proof.
  unfold buildDashboardMetrics, dashboard_summary, metrics_loop.
  set (ra := map acc_id (accounts_of_type Revenue accounts)).
  set (ea := map acc_id (accounts_of_type Expense accounts)).
  assert (H : forall l agg r x,
    let st := fold_left (metrics_step month_label ra ea) l (agg, r, x) in
    (snd (fst st), snd st) =
    fold_left (fun acc entry =>
                 let er := entry_revenue_expense ra ea entry in
                 (fst acc + fst er, snd acc + snd er)) l (r, x)).
  { induction l as [|e l IH]; intros agg r x; simpl; [reflexivity|].
    unfold metrics_step at 2. simpl.
    match goal with |- context [fold_left _ l (?a, _, _)] => apply (IH a) end. }
  specialize (H (sort_by date_desc entries) [] 0 0). simpl in H.
  destruct (fold_left (metrics_step month_label ra ea) (sort_by date_desc entries) ([], 0, 0))
    as [[agg r] x]. simpl in H. rewrite <- H. reflexivity.
Qed.

(** Dashboard monthly series: the revenue, expense and profit columns of
    the monthly buckets add up to the revenue, expense and profit of the
    dashboard summary. *)
Theorem dashboard_monthly_totals (month_label : string -> string)
    (entries : list JournalEntry) (accounts : list Account) :
  let m := buildDashboardMetrics month_label entries accounts in
  qsum mm_revenue (dm_monthly m) == sum_revenue (dm_summary m) /\
  qsum mm_expense (dm_monthly m) == sum_expense (dm_summary m) /\
  qsum mm_profit (dm_monthly m) == sum_profit (dm_summary m).
Proof.
  pose proof (metrics_loop_inv month_label entries accounts) as Hinv.
  unfold buildDashboardMetrics, monthly_buckets. cbn zeta.
  destruct (metrics_loop month_label entries accounts) as [[agg rv] ex].
  destruct Hinv as [_ _ _ Hsr Hse _ _]; simpl in *.
  set (sorted := sort_by key_asc (map refresh_profit agg)).
  assert (Hp : Permutation sorted (map refresh_profit agg)) by apply sort_by_perm.
  assert (Hr : qsum mm_revenue (map snd sorted) == rv).
  { rewrite qsum_map, (qsum_perm _ _ _ Hp), qsum_map, <- Hsr.
    apply qsum_ext. intros [k b] _. reflexivity. }
  assert (He : qsum mm_expense (map snd sorted) == ex).
  { rewrite qsum_map, (qsum_perm _ _ _ Hp), qsum_map, <- Hse.
    apply qsum_ext. intros [k b] _. reflexivity. }
  split; [exact Hr|]. split; [exact He|].
  rewrite <- Hr, <- He, qsum_sub.
  apply qsum_ext. intros b Hb. apply in_map_iff in Hb. destruct Hb as [[k b'] [<- Hb]].
  apply (Permutation_in _ Hp) in Hb. apply in_map_iff in Hb.
  destruct Hb as [[k0 b0] [Hr0 _]]. simpl in Hr0. injection Hr0 as _ <-. reflexivity.
Qed.

(** Dashboard monthly series: one bucket per month key
    ([date.slice(0, 7)]) of the entries, in strictly increasing key order,
    each holding the revenue and expense of the entries of its month and
    their difference as profit. *)
Theorem dashboard_monthly_buckets (month_label : string -> string)
    (entries : list JournalEntry) (accounts : list Account) :
  let ra := map acc_id (accounts_of_type Revenue accounts) in
  let ea := map acc_id (accounts_of_type Expense accounts) in
  let buckets := monthly_buckets month_label entries accounts in
  dm_monthly (buildDashboardMetrics month_label entries accounts) = map snd buckets /\
  StronglySorted (fun p q => String.ltb (fst p) (fst q) = true) buckets /\
  (forall e, In e entries -> In (monthKey e) (map fst buckets)) /\
  (forall k b, In (k, b) buckets ->
     (exists e, In e entries /\ monthKey e = k) /\
     mm_revenue b == month_revenue ra ea k entries /\
     mm_expense b == month_expense ra ea k entries /\
     mm_profit b = mm_revenue b - mm_expense b).
Proof.
  cbn zeta.
  pose proof (metrics_loop_inv month_label entries accounts) as Hinv.
  split; [unfold buildDashboardMetrics; destruct (metrics_loop month_label entries accounts)
            as [[? ?] ?]; reflexivity|].
  unfold monthly_buckets.
  destruct (metrics_loop month_label entries accounts) as [[agg rv] ex].
  destruct Hinv as [Hnd Hkeys Hb _ _ _ _]; simpl in *.
  set (sorted := sort_by key_asc (map refresh_profit agg)).
  assert (Hp : Permutation sorted (map refresh_profit agg)) by apply sort_by_perm.
  assert (Hkp : map fst (map refresh_profit agg) = map fst agg).
  { rewrite map_map. apply map_ext, refresh_profit_fst. }
  assert (Hnds : List.NoDup (map fst sorted)).
  { apply (Permutation_NoDup (Permutation_map fst (Permutation_sym Hp))). rewrite Hkp. exact Hnd. }
  assert (Hpe : Permutation (sort_by date_desc entries) entries) by apply sort_by_perm.
  assert (Hin : forall k b, In (k, b) sorted ->
            exists b0, map_get k agg = Some b0 /\ b = snd (refresh_profit (k, b0))).
  { intros k b H. apply (Permutation_in _ Hp) in H. apply in_map_iff in H.
    destruct H as [[k0 b0] [Hr H0]]. simpl in Hr. injection Hr as <- <-.
    exists b0. split; [apply In_map_get; assumption|reflexivity]. }
  split; [|split].
  - apply StronglySorted_strict; [|exact Hnds].
    apply (sort_by_sorted key_asc key_asc_trans key_asc_total).
  - intros e He.
    apply (Permutation_in _ (Permutation_map fst (Permutation_sym Hp))). rewrite Hkp.
    destruct (map_get (monthKey e) agg) eqn:Hg.
    + apply map_get_In in Hg. apply (in_map fst) in Hg. exact Hg.
    + pose proof (proj1 (Hkeys (monthKey e)) Hg) as Hg'. exfalso. clear Hg. rename Hg' into Hg. apply (Hg e); [|reflexivity].
      apply (Permutation_in _ (Permutation_sym Hpe)), He.
  - intros k b H. destruct (Hin k b H) as [b0 [Hg ->]]. simpl.
    destruct (Hb k b0 Hg) as [H1 H2].
    split; [|split; [|split]].
    + destruct (List.find (fun e => String.eqb (monthKey e) k) (sort_by date_desc entries))
        as [e|] eqn:Hf.
      * apply find_some in Hf. destruct Hf as [Hf Hk]. apply String.eqb_eq in Hk.
        exists e. split; [apply (Permutation_in _ Hpe), Hf|exact Hk].
      * exfalso. assert (Hn : map_get k agg = None).
        { apply Hkeys. intros e He Hk. apply (find_none _ _ Hf) in He.
          rewrite Hk, String.eqb_refl in He. discriminate. }
        congruence.
    + rewrite H1. unfold month_revenue. apply qsum_perm, Permutation_list_filter, Hpe.
    + rewrite H2. unfold month_expense. apply qsum_perm, Permutation_list_filter, Hpe.
    + reflexivity.
Qed.

Lemma StronglySorted_app_l {A} (R : A -> A -> Prop) (l1 l2 : list A) :
  StronglySorted R (l1 ++ l2) -> StronglySorted R l1.
Proof.
  induction l1 as [|a l1 IH]; simpl; intros Hs; [constructor|].
  apply StronglySorted_inv in Hs. destruct Hs as [Hs Ha]. constructor; [apply IH, Hs|].
  rewrite List.Forall_forall in Ha |- *. intros x Hx. apply Ha, in_or_app. left. exact Hx.
Qed.

Lemma In_firstn_l {A} (n : nat) (x : A) (l : list A) : In x (firstn n l) -> In x l.
Proof. intros H. rewrite <- (firstn_skipn n l). apply in_or_app. left. exact H. Qed.

(** Dashboard recent entries: the first [min 8 n] entries in descending
    date order, taken from the journal; an entry dated strictly later than
    a shown one is shown too. *)
Theorem dashboard_recent_entries (month_label : string -> string)
    (entries : list JournalEntry) (accounts : list Account) :
  let recent := dm_recentEntries (buildDashboardMetrics month_label entries accounts) in
  length recent = Nat.min 8 (length entries) /\
  StronglySorted (fun a b => String.leb (entry_date b) (entry_date a) = true) recent /\
  (forall e, In e recent -> In e entries) /\
  (forall e e', In e recent -> In e' entries ->
     String.ltb (entry_date e) (entry_date e') = true -> In e' recent).
Proof.
  cbn zeta.
  assert (Hr : dm_recentEntries (buildDashboardMetrics month_label entries accounts)
               = firstn 8 (sort_by date_desc entries)).
  { unfold buildDashboardMetrics. destruct (metrics_loop month_label entries accounts) as [[? ?] ?].
    reflexivity. }
  rewrite Hr. clear Hr.
  set (s := sort_by date_desc entries).
  assert (Hp : Permutation s entries) by apply sort_by_perm.
  assert (Hs : StronglySorted (fun a b => date_desc a b = true) s)
    by apply (sort_by_sorted date_desc date_desc_trans date_desc_total).
  split; [|split; [|split]].
  - rewrite length_firstn, (Permutation_length Hp). reflexivity.
  - rewrite <- (firstn_skipn 8 s) in Hs.
    apply StronglySorted_app_l in Hs. exact Hs.
  - intros e He. apply (Permutation_in _ Hp). apply (In_firstn_l _ _ _ He).
  - intros e e' He He' Hlt.
    apply (Permutation_in _ (Permutation_sym Hp)) in He'.
    rewrite <- (firstn_skipn 8 s) in He'. apply in_app_or in He'.
    destruct He' as [He'|He']; [exact He'|].
    rewrite <- (firstn_skipn 8 s) in Hs.
    pose proof (StronglySorted_app_inv _ _ _ e e' Hs He He') as Hd.
    unfold date_desc in Hd. apply string_ltb_not_leb in Hlt. congruence.
Qed.

(* ================================================================== *)
(** * Customer contribution chart *)

Definition customer_sum (c : string) (invoices : list Invoice) : Q :=
  qsum invoice_total (List.filter (fun inv => String.eqb (invoice_customerId inv) c) invoices).

Record totals_inv (ps : list Invoice) (m : list (string * Q)) : Prop := {
  ti_nodup : List.NoDup (map fst m);
  ti_get : forall c t, map_get c m = Some t -> t == customer_sum c ps;
  ti_keys : forall c, In c (map fst m) <-> In c (map invoice_customerId ps);
  ti_sum : qsum (fun p => snd p) m == qsum invoice_total ps
}.

Lemma map_get_Some_in {V} (k : string) (m : list (string * V)) :
  In k (map fst m) -> exists v, map_get k m = Some v.
Proof.
  intros H. destruct (map_get k m) eqn:Hg; [eauto|].
  apply map_get_None_notin in Hg. contradiction.
Qed.

Lemma totals_fold_inv (l ps : list Invoice) (m : list (string * Q)) :
  totals_inv ps m ->
  totals_inv (ps ++ l)
    (fold_left (fun totals invoice =>
               map_set (invoice_customerId invoice)
                 (match map_get (invoice_customerId invoice) totals with
                  | Some t => t | None => 0 end + invoice_total invoice) totals) l m).
Proof.
  revert ps m; induction l as [|inv l IH]; intros ps m [Hnd Hget Hkeys Hsum]; simpl.
  - rewrite app_nil_r. constructor; assumption.
  - replace (ps ++ inv :: l) with ((ps ++ [inv]) ++ l) by (rewrite <- app_assoc; reflexivity).
    apply IH. set (c := invoice_customerId inv).
    set (t0 := match map_get c m with Some t => t | None => 0 end).
    constructor.
    + apply map_set_NoDup, Hnd.
    + intros c' t. rewrite map_get_set. unfold customer_sum. rewrite List.filter_app, qsum_app.
      simpl. fold c. destruct (String.eqb c' c) eqn:Hc.
      * intros [= <-]. apply String.eqb_eq in Hc. subst c'. rewrite String.eqb_refl. simpl.
        unfold t0. destruct (map_get c m) eqn:Hg.
        -- rewrite (Hget c q Hg). unfold customer_sum. ring.
        -- apply map_get_None_notin in Hg. rewrite Hkeys in Hg.
           rewrite list_filter_none; [simpl; ring|].
           intros x Hx. apply Bool.not_true_iff_false. intros Hx'. apply String.eqb_eq in Hx'.
           apply Hg. rewrite <- Hx'. apply in_map, Hx.
      * intros Hg. rewrite (Hget c' t Hg).
        assert (Hc' : String.eqb c c' = false).
        { apply String.eqb_neq. apply String.eqb_neq in Hc. congruence. }
        rewrite Hc'. simpl. unfold customer_sum. ring.
    + intros c'. rewrite map_set_keys, map_app. simpl. fold c.
      destruct (map_get c m) eqn:Hg.
      * rewrite Hkeys. split; intros H; [apply in_or_app; left; exact H|].
        apply in_app_or in H. destruct H as [H|[<-|[]]]; [exact H|].
        apply Hkeys. apply map_get_In in Hg. apply (in_map fst) in Hg. exact Hg.
      * split; intros H; apply in_app_or in H; apply in_or_app;
          (destruct H as [H|H]; [left; apply Hkeys, H|right; exact H]).
    + pose proof (qsum_map_set (fun t : Q => t) c (t0 + invoice_total inv) m) as Hms.
      cbn beta in Hms. rewrite Hms, qsum_app. simpl. fold c. fold t0. rewrite Hsum.
      unfold t0. destruct (map_get c m); ring.
Qed.

Lemma customer_totals_inv (invoices : list Invoice) :
  totals_inv invoices (customer_totals invoices).
Proof.
  apply (totals_fold_inv invoices []). constructor; simpl.
  - constructor.
  - discriminate.
  - tauto.
  - reflexivity.
Qed.

Lemma amount_desc_trans (x y z : ContributionSlice) :
  amount_desc x y = true -> amount_desc y z = true -> amount_desc x z = true.
Proof. unfold amount_desc. rewrite !Qle_bool_iff. intros; lra. Qed.

Lemma amount_desc_total (x y : ContributionSlice) : amount_desc x y = false -> amount_desc y x = true.
Proof.
  unfold amount_desc. intros H. apply Qle_bool_iff.
  apply Bool.not_true_iff_false in H. rewrite Qle_bool_iff in H. lra.
Qed.

Lemma StronglySorted_weaken {A} (R R' : A -> A -> Prop) (l : list A) :
  (forall a b, R a b -> R' a b) -> StronglySorted R l -> StronglySorted R' l.
Proof.
  intros HR. induction 1 as [|a l _ IH Ha]; constructor; [exact IH|].
  eapply List.Forall_impl; [|exact Ha]. intros b. apply HR.
Qed.

(** Customer contribution chart: at most six slices in non-increasing
    amount order, each the party name and the invoice total of one
    invoiced customer, and [totalAmount] is the sum of the shown slices. *)
Theorem customer_contribution_slices (invoices : list Invoice) (parties : list Party) :
  let cc := customerContribution invoices parties in
  (length (cc_slices cc) <= 6)%nat /\
  StronglySorted (fun a b => cs_amount b <= cs_amount a) (cc_slices cc) /\
  (forall s, In s (cc_slices cc) ->
     exists c, In c (map invoice_customerId invoices) /\
       cs_partyName s = party_name_of parties c /\
       cs_amount s == customer_sum c invoices) /\
  cc_totalAmount cc == qsum cs_amount (cc_slices cc).
Proof.
  cbn zeta. unfold customerContribution; simpl.
  destruct (customer_totals_inv invoices) as [Hnd Hget Hkeys _].
  set (sl := map (fun p => mkSlice (party_name_of parties (fst p)) (snd p)) (customer_totals invoices)).
  assert (Hp : Permutation (sort_by amount_desc sl) sl) by apply sort_by_perm.
  split; [|split; [|split]].
  - rewrite length_firstn. lia.
  - pose proof (sort_by_sorted amount_desc amount_desc_trans amount_desc_total sl) as Hs.
    rewrite <- (firstn_skipn 6 (sort_by amount_desc sl)) in Hs.
    apply StronglySorted_app_l in Hs.
    eapply StronglySorted_weaken; [|exact Hs].
    intros a b H. apply Qle_bool_iff, H.
  - intros s Hs. apply In_firstn_l, (Permutation_in _ Hp) in Hs.
    apply in_map_iff in Hs. destruct Hs as [[c t] [<- Hin]]. simpl.
    exists c. split; [apply Hkeys, (in_map fst _ _ Hin)|].
    split; [reflexivity|]. apply Hget, In_map_get; assumption.
  - apply reduce_sum_qsum.
Qed.

(** Customer contribution chart: with at most six distinct invoiced
    customers, [totalAmount] is the sum of all invoice totals. *)
Theorem customer_contribution_total_all (invoices : list Invoice) (parties : list Party) :
  (length (List.nodup string_dec (map invoice_customerId invoices)) <= 6)%nat ->
  cc_totalAmount (customerContribution invoices parties) == qsum invoice_total invoices.
Proof.
  intros H6. unfold customerContribution; simpl.
  destruct (customer_totals_inv invoices) as [Hnd _ Hkeys Hsum].
  set (sl := map (fun p => mkSlice (party_name_of parties (fst p)) (snd p)) (customer_totals invoices)).
  assert (Hp : Permutation (sort_by amount_desc sl) sl) by apply sort_by_perm.
  assert (Hlen : (length (customer_totals invoices) <= 6)%nat).
  { rewrite <- (length_map fst). etransitivity; [|exact H6].
    apply NoDup_incl_length; [exact Hnd|].
    intros c Hc. apply nodup_In, Hkeys, Hc. }
  rewrite firstn_all2 by (rewrite (Permutation_length Hp); unfold sl; rewrite length_map; exact Hlen).
  rewrite reduce_sum_qsum, (qsum_perm _ _ _ Hp). unfold sl. rewrite qsum_map. simpl.
  exact Hsum.
Qed.

(* ================================================================== *)
(** * Invoice builder and journal entry form *)

Lemma list_filter_all {A} (p : A -> bool) (l : list A) :
  (forall x, In x l -> p x = true) -> List.filter p l = l.
Proof.
  induction l as [|x l IH]; intros H; simpl; [reflexivity|].
  rewrite (H x (or_introl eq_refl)), IH; [reflexivity|].
  intros y Hy. apply H. right. exact Hy.
Qed.

Lemma filter_remove_one {L} (f : L -> string) (id : string) (lines : list L) :
  List.NoDup (map f lines) ->
  (length lines <= S (length (List.filter (fun line => negb (String.eqb (f line) id)) lines)))%nat.
Proof.
  induction lines as [|x lines IH]; simpl; intros Hnd; [lia|].
  inversion Hnd as [|? ? Hx Hnd']; subst.
  destruct (String.eqb (f x) id) eqn:Hxi; simpl.
  - apply String.eqb_eq in Hxi.
    rewrite list_filter_all; [lia|].
    intros y Hy. apply Bool.negb_true_iff, String.eqb_neq. intros Hy'.
    apply Hx. rewrite Hxi, <- Hy'. apply in_map, Hy.
  - specialize (IH Hnd'). lia.
Qed.

(** Invoice builder [removeLine]: the form never becomes empty; with more
    than one line it drops exactly the line with the given temporary id. *)
Theorem invoice_removeLine_keeps_line {L} (tempId : L -> string) (id : string) (lines : list L) :
  lines <> [] -> List.NoDup (map tempId lines) ->
  let lines' := invoice_removeLine tempId id lines in
  lines' <> [] /\ (length lines <= S (length lines'))%nat /\
  (length lines <> 1%nat -> ~ In id (map tempId lines')).
Proof.
  intros Hne Hnd. cbn zeta. unfold invoice_removeLine.
  destruct (Nat.eqb (length lines) 1) eqn:H1.
  - apply Nat.eqb_eq in H1. split; [exact Hne|]. split; [lia|]. intros H; contradiction.
  - apply Nat.eqb_neq in H1. pose proof (filter_remove_one tempId id lines Hnd) as Hl.
    assert (Hlen : (1 <= length lines)%nat) by (destruct lines; [congruence|simpl; lia]).
    split; [|split; [exact Hl|]].
    + intros Hnil. rewrite Hnil in Hl. simpl in Hl. lia.
    + intros _ Hin. apply in_map_iff in Hin. destruct Hin as [x [Hx Hin]].
      apply filter_In in Hin. destruct Hin as [_ Hin]. rewrite Hx, String.eqb_refl in Hin.
      discriminate.
Qed.

(** Journal form [handleRemoveLine]: the form keeps at least two lines;
    with more than two it drops exactly the line with the given temporary
    id. *)
Theorem journal_removeLine_keeps_two {L} (tempId : L -> string) (id : string) (lines : list L) :
  (2 <= length lines)%nat -> List.NoDup (map tempId lines) ->
  let lines' := journal_removeLine tempId id lines in
  (2 <= length lines')%nat /\ (length lines <= S (length lines'))%nat /\
  ((2 < length lines)%nat -> ~ In id (map tempId lines')).
Proof.
  intros H2 Hnd. cbn zeta. unfold journal_removeLine.
  destruct (Nat.leb (length lines) 2) eqn:Hle.
  - apply Nat.leb_le in Hle. split; [lia|]. split; [lia|]. intros H; lia.
  - apply Nat.leb_gt in Hle. pose proof (filter_remove_one tempId id lines Hnd) as Hl.
    split; [lia|]. split; [exact Hl|].
    intros _ Hin. apply in_map_iff in Hin. destruct Hin as [x [Hx Hin]].
    apply filter_In in Hin. destruct Hin as [_ Hin]. rewrite Hx, String.eqb_refl in Hin.
    discriminate.
Qed.

Lemma calculateLineTotal_parts (quantity rate discount taxRate : Q) :
  calculateLineTotal quantity rate discount taxRate
  == spec_taxable quantity rate discount + spec_taxAmount quantity rate discount taxRate.
Proof.
  unfold calculateLineTotal, spec_taxAmount, spec_taxable, spec_discountAmount, spec_base. field.
Qed.

Lemma computeTotals_sums (lines : list DraftInvoiceLine) (inventoryItems : list InventoryItem) :
  let t := computeTotals lines inventoryItems in
  subtotal t == qsum (draft_taxable inventoryItems) lines /\
  discountTotal t == qsum (draft_discountAmount inventoryItems) lines /\
  taxTotal t == qsum (draft_taxAmount inventoryItems) lines /\
  total t == qsum (draft_lineTotal inventoryItems) lines.
Proof.
  cbn zeta. unfold computeTotals.
  pose proof (totals_fold inventoryItems lines 0 0 0) as Hf. cbn zeta in Hf.
  destruct (fold_left (totals_step inventoryItems) lines (0, 0, 0)) as [[st dt] tx].
  simpl in *. destruct Hf as [H1 [H2 H3]].
  split; [rewrite H1; ring|]. split; [rewrite H2; ring|]. split; [rewrite H3; ring|].
  rewrite H1, H3.
  assert (Hsum : forall ls,
    qsum (draft_lineTotal inventoryItems) ls
    == qsum (draft_taxable inventoryItems) ls + qsum (draft_taxAmount inventoryItems) ls).
  { induction ls as [|l ls IH]; simpl; [ring|]. rewrite IH.
    unfold draft_lineTotal, draft_taxable, draft_taxAmount. rewrite calculateLineTotal_parts. ring. }
  rewrite Hsum. ring.
Qed.

(** Invoice builder [addLine]: appending [emptyDraftLine()] leaves the
    four totals unchanged, as long as no inventory item has the empty id. *)
Theorem invoice_addLine_totals (lines : list DraftInvoiceLine) (inventoryItems : list InventoryItem) :
  (forall item, In item inventoryItems -> inv_id item <> "") ->
  let t := computeTotals lines inventoryItems in
  let t' := computeTotals (lines ++ [emptyDraftLine]) inventoryItems in
  subtotal t' == subtotal t /\ discountTotal t' == discountTotal t /\
  taxTotal t' == taxTotal t /\ total t' == total t.
Proof.
  intros Hid. cbn zeta.
  assert (Hrate : line_rate inventoryItems emptyDraftLine = 0).
  { unfold line_rate, emptyDraftLine; simpl.
    destruct (List.find (fun item => String.eqb (inv_id item) "") inventoryItems) eqn:Hf;
      [|reflexivity].
    apply find_some in Hf. destruct Hf as [Hin Heq]. apply String.eqb_eq in Heq.
    exfalso. apply (Hid i Hin Heq). }
  destruct (computeTotals_sums lines inventoryItems) as [A1 [A2 [A3 A4]]].
  destruct (computeTotals_sums (lines ++ [emptyDraftLine]) inventoryItems) as [B1 [B2 [B3 B4]]].
  rewrite B1, B2, B3, B4, A1, A2, A3, A4, !qsum_app. simpl.
  unfold draft_taxable, draft_discountAmount, draft_taxAmount, draft_lineTotal.
  rewrite Hrate. unfold calculateLineTotal, spec_taxAmount, spec_taxable, spec_discountAmount, spec_base.
  simpl. split; [|split; [|split]]; field.
Qed.

Lemma qsum_pos_exists {A} (f : A -> Q) (l : list A) :
  0 < qsum f l -> exists x, In x l /\ 0 < f x.
Proof.
  induction l as [|x l IH]; simpl; intros H; [lra|].
  destruct (Qlt_le_dec 0 (f x)) as [Hx|Hx].
  - exists x. auto.
  - destruct IH as [y [Hy Hfy]]; [lra|]. exists y. auto.
Qed.

(** Invoice builder [handleSubmit]: an issued invoice has a customer, an
    inventory item on every line, the form's totals and the parsed lines,
    and at least one line with nonzero quantity and positive taxable
    amount. *)
Theorem invoice_submit_accepted (customerId : string) (lines : list DraftInvoiceLine)
    (inventoryItems : list InventoryItem) (issued : list InvoiceLine) (totals : InvoiceTotals) :
  invoice_handleSubmit customerId lines inventoryItems = InvoiceIssued issued totals ->
  customerId <> "" /\
  (forall line, In line lines -> dl_inventoryId line <> "") /\
  totals = computeTotals lines inventoryItems /\ issued = map enrichLine lines /\
  exists line, In line lines /\ ~ dl_quantity line == 0 /\ 0 < draft_taxable inventoryItems line.
Proof.
  unfold invoice_handleSubmit.
  destruct (String.eqb customerId "") eqn:Hc; [discriminate|].
  destruct (existsb (fun line => String.eqb (dl_inventoryId line) "") lines) eqn:Hl; [discriminate|].
  destruct (Qle_bool (subtotal (computeTotals lines inventoryItems)) 0) eqn:Hs; [discriminate|].
  intros [= <- <-].
  split; [apply String.eqb_neq, Hc|].
  split.
  { intros line Hin He. apply String.eqb_eq in He.
    assert (Hx : existsb (fun line => String.eqb (dl_inventoryId line) "") lines = true).
    { apply existsb_exists. exists line. split; [exact Hin|]. rewrite He. reflexivity. }
    congruence. }
  split; [reflexivity|]. split; [reflexivity|].
  apply Bool.not_true_iff_false in Hs. rewrite Qle_bool_iff in Hs.
  destruct (computeTotals_sums lines inventoryItems) as [H1 _].
  destruct (qsum_pos_exists (draft_taxable inventoryItems) lines) as [line [Hin Hpos]]; [lra|].
  exists line. split; [exact Hin|]. split; [|exact Hpos].
  intros Hq.
  assert (Hz : draft_taxable inventoryItems line == 0).
  { unfold draft_taxable, spec_taxable, spec_discountAmount, spec_base. rewrite Hq. field. }
  lra.
Qed.

(** Invoice PDF: the line amounts printed by [downloadInvoicePdf] add up
    to the invoice total minus the totals of the lines whose unit price
    was left blank (the form prices those from the inventory item, the
    stored line at 0). *)
Theorem invoice_pdf_amounts (customerId : string) (lines : list DraftInvoiceLine)
    (inventoryItems : list InventoryItem) (issued : list InvoiceLine) (totals : InvoiceTotals) :
  invoice_handleSubmit customerId lines inventoryItems = InvoiceIssued issued totals ->
  qsum pdf_line_amount issued
  == total totals
     - qsum (fun line => match dl_unitPrice line with
                         | Some _ => 0
                         | None => draft_lineTotal inventoryItems line
                         end) lines.
Proof.
  unfold invoice_handleSubmit.
  destruct (String.eqb customerId "") eqn:Hc; [discriminate|].
  destruct (existsb (fun line => String.eqb (dl_inventoryId line) "") lines) eqn:Hl; [discriminate|].
  destruct (Qle_bool (subtotal (computeTotals lines inventoryItems)) 0) eqn:Hs; [discriminate|].
  intros [= <- <-].
  destruct (computeTotals_sums lines inventoryItems) as [_ [_ [_ H4]]].
  rewrite H4, qsum_map, qsum_sub. apply qsum_ext. intros line _.
  unfold pdf_line_amount, enrichLine, draft_lineTotal, line_rate; simpl.
  destruct (dl_unitPrice line) as [r|].
  - ring.
  - unfold calculateLineTotal. ring.
Qed.

(** Journal form [handleEntrySubmit]: a posted entry has debits and
    credits within 0.01 of each other, an account on every line, a
    non-empty reference and one line per form line. *)
Theorem journal_submit_posted (newId : JournalDraftLine -> string) (now reference : string)
    (lines : list JournalDraftLine) (ref : string) (posted : list JournalLine) :
  journal_handleEntrySubmit newId now reference lines = JournalPosted ref posted ->
  Qabs (qsum line_debit posted - qsum line_credit posted) < 1 # 100 /\
  (forall line, In line posted -> line_accountId line <> "") /\
  ref <> "" /\ length posted = length lines.
Proof.
  unfold journal_handleEntrySubmit.
  destruct (journal_isBalanced lines) eqn:Hb; simpl; [|discriminate].
  destruct (existsb (fun line => String.eqb (jdl_accountId line) "") lines) eqn:Hl; [discriminate|].
  intros [= <- <-].
  split; [|split; [|split]].
  - unfold journal_isBalanced in Hb. apply Bool.negb_true_iff in Hb.
    apply Bool.not_true_iff_false in Hb. rewrite Qle_bool_iff in Hb.
    rewrite !reduce_sum_qsum in Hb. apply Qnot_le_lt in Hb.
    rewrite !qsum_map. exact Hb.
  - intros line Hin. apply in_map_iff in Hin. destruct Hin as [d [<- Hd]]. simpl.
    intros He. apply String.eqb_eq in He.
    assert (Hx : existsb (fun line => String.eqb (jdl_accountId line) "") lines = true).
    { apply existsb_exists. exists d. split; [exact Hd|]. rewrite He. reflexivity. }
    congruence.
  - destruct (String.eqb reference "") eqn:Hr; [discriminate|]. apply String.eqb_neq, Hr.
  - apply length_map.
Qed.

Lemma qsum_abs_bound {A} (f : A -> Q) (c : Q) (l : list A) :
  (forall x, In x l -> Qabs (f x) <= c) ->
  Qabs (qsum f l) <= inject_Z (Z.of_nat (length l)) * c.
Proof.
  induction l as [|x l IH]; intros H; simpl.
  - vm_compute. discriminate.
  - rewrite Nat2Z.inj_succ, <- Z.add_1_r, inject_Z_plus.
    eapply Qle_trans; [apply Qabs_triangle|].
    assert (Hx : Qabs (f x) <= c) by (apply H; left; reflexivity).
    assert (Hl : Qabs (qsum f l) <= inject_Z (Z.of_nat (length l)) * c)
      by (apply IH; intros y Hy; apply H; right; exact Hy).
    simpl. rewrite Qmult_plus_distr_l.
    change (inject_Z 1) with 1. rewrite Qmult_1_l. lra.
Qed.

(** Trial Balance with entries posted through the journal form: when
    each entry is balanced within 0.01, the account list has distinct ids
    and covers every line, the totals differ by at most 0.01 times the
    number of entries. *)
Theorem journal_tolerance_trial_balance (entries : list JournalEntry) (accounts : list Account)
    (fromDate toDate : string) :
  (forall entry, In entry entries ->
     Qabs (qsum line_debit (entry_lines entry) - qsum line_credit (entry_lines entry)) < 1 # 100) ->
  List.NoDup (map acc_id accounts) ->
  (forall entry line, In entry entries -> In line (entry_lines entry) ->
     In (line_accountId line) (map acc_id accounts)) ->
  let tb := trialBalance (buildReports entries accounts fromDate toDate) in
  Qabs (totalDebit tb - totalCredit tb) <= inject_Z (Z.of_nat (length entries)) * (1 # 100).
Proof.
  intros Hent Hnd Hcov. cbn zeta.
  rewrite buildReports_trialBalance. cbn zeta. simpl.
  set (fe := List.filter (in_range fromDate toDate) entries).
  set (balances := computeAccountBalances fe).
  assert (Hdiff : reduce_sum tb_debit (map (trial_balance_line balances) accounts)
                  - reduce_sum tb_credit (map (trial_balance_line balances) accounts)
                  == qsum (fun entry => qsum line_net (entry_lines entry)) fe).
  { rewrite !reduce_sum_qsum, qsum_sub, qsum_map.
    rewrite (qsum_ext _ (fun a => get_or_zero balances (acc_id a)))
      by (intros a _; apply (trial_balance_line_spec balances a)).
    rewrite <- (qsum_map (get_or_zero balances) acc_id accounts).
    unfold balances, computeAccountBalances.
    rewrite qsum_get_entries; [|exact Hnd|].
    - rewrite (qsum_zero (get_or_zero ∅)) by (intros; reflexivity). ring.
    - intros e l He Hl. apply filter_In in He. apply (Hcov e l); [apply He|exact Hl]. }
  rewrite (Qabs_wd _ _ Hdiff).
  eapply Qle_trans.
  - apply (qsum_abs_bound _ (1 # 100)).
    intros e He. apply filter_In in He. destruct He as [He _].
    specialize (Hent e He). unfold line_net. rewrite <- qsum_sub. lra.
  - apply Qmult_le_compat_r; [|discriminate].
    rewrite <- Zle_Qle. apply Nat2Z.inj_le. apply List.filter_length_le.
Qed.

(* ================================================================== *)
(** * CSV export read back *)

(** A CSV reader in the usual (RFC 4180) convention: fields separated by
    commas, records by line feeds, a field in double quotes may contain
    commas, line feeds and doubled quotes. *)
Inductive csv_mode := AtFieldStart | InPlain | InQuoted | QuoteInQuoted.

Definition field_of (fld : list ascii) : string := string_of_list_ascii (rev fld).

Fixpoint csv_read (m : csv_mode) (cs : list ascii) (fld : list ascii) (row : list string)
    : list (list string) :=
  match cs with
  | [] => [rev (field_of fld :: row)]
  | c :: cs' =>
      match m with
      | InQuoted =>
          if Ascii.eqb c dquote then csv_read QuoteInQuoted cs' fld row
          else csv_read InQuoted cs' (c :: fld) row
      | _ =>
          if Ascii.eqb c dquote then
            match m with
            | AtFieldStart => csv_read InQuoted cs' fld row
            | QuoteInQuoted => csv_read InQuoted cs' (dquote :: fld) row
            | _ => csv_read InPlain cs' (c :: fld) row
            end
          else if Ascii.eqb c comma then csv_read AtFieldStart cs' [] (field_of fld :: row)
          else if Ascii.eqb c newline then
            rev (field_of fld :: row) :: csv_read AtFieldStart cs' [] []
          else csv_read InPlain cs' (c :: fld) row
      end
  end.

Definition parseCsv (text : string) : list (list string) :=
  csv_read AtFieldStart (list_ascii_of_string text) [] [].


Lemma list_ascii_of_string_app (s t : string) :
  list_ascii_of_string (s ++ t) = list_ascii_of_string s ++ list_ascii_of_string t.
Proof. induction s as [|c s IH]; simpl; [reflexivity|]. rewrite IH. reflexivity. Qed.

Definition field_end (m : csv_mode) : Prop := m = AtFieldStart \/ m = InPlain \/ m = QuoteInQuoted.

(** What the reader does after a complete field with pending record [row]. *)
Definition after_field (rest : list ascii) (row : list string) : list (list string) :=
  match rest with
  | [] => [rev row]
  | c :: r =>
      if Ascii.eqb c comma then csv_read AtFieldStart r [] row
      else rev row :: csv_read AtFieldStart r [] []
  end.

Definition field_sep (rest : list ascii) : Prop :=
  rest = [] \/ (exists r, rest = comma :: r) \/ (exists r, rest = newline :: r).

Lemma csv_read_field_end (m : csv_mode) (rest : list ascii) (fld : list ascii) (row : list string) :
  field_end m -> field_sep rest ->
  csv_read m rest fld row = after_field rest (field_of fld :: row).
Proof.
  intros Hm [-> | [[r ->] | [r ->]]]; [reflexivity| |];
    destruct Hm as [-> | [-> | ->]]; reflexivity.
Qed.

Lemma plain_chars (s : string) (rest fld : list ascii) (row : list string) :
  csv_needs_quotes s = false ->
  csv_read InPlain (list_ascii_of_string s ++ rest) fld row =
  csv_read InPlain rest (rev (list_ascii_of_string s) ++ fld) row.
Proof.
  revert fld; induction s as [|c s IH]; intros fld H; [reflexivity|].
  simpl in H. apply Bool.orb_false_iff in H as [H Hs].
  apply Bool.orb_false_iff in H as [H Hn].
  apply Bool.orb_false_iff in H as [Hq Hc].
  simpl. rewrite Hq, Hc, Hn. rewrite IH by exact Hs. simpl. rewrite <- app_assoc. reflexivity.
Qed.

Lemma quoted_chars (s : string) (rest fld : list ascii) (row : list string) :
  csv_read InQuoted (list_ascii_of_string (double_quotes s) ++ dquote :: rest) fld row =
  csv_read QuoteInQuoted rest (rev (list_ascii_of_string s) ++ fld) row.
Proof.
  revert fld; induction s as [|c s IH]; intros fld; simpl.
  - reflexivity.
  - destruct (Ascii.eqb c dquote) eqn:Hq.
    + apply Ascii.eqb_eq in Hq. subst c. simpl.
      rewrite IH. rewrite <- app_assoc. reflexivity.
    + simpl. rewrite Hq. rewrite IH. rewrite <- app_assoc. reflexivity.
Qed.

Lemma field_of_rev (s : string) : field_of (rev (list_ascii_of_string s)) = s.
Proof. unfold field_of. rewrite rev_involutive. apply string_of_list_ascii_of_string. Qed.

Lemma read_escaped_field (s : string) (rest : list ascii) (row : list string) :
  field_sep rest ->
  csv_read AtFieldStart (list_ascii_of_string (csvEscape s) ++ rest) [] row =
  after_field rest (s :: row).
Proof.
  intros Hsep. unfold csvEscape.
  destruct (csv_needs_quotes s) eqn:Hs.
  - simpl. rewrite list_ascii_of_string_app. simpl. rewrite <- app_assoc. simpl.
    rewrite quoted_chars, app_nil_r.
    rewrite csv_read_field_end by (unfold field_end; auto).
    rewrite field_of_rev. reflexivity.
  - destruct s as [|c s'].
    + simpl. rewrite csv_read_field_end by (unfold field_end; auto). reflexivity.
    + simpl in Hs |- *.
      apply Bool.orb_false_iff in Hs as [H Hs'].
      apply Bool.orb_false_iff in H as [H Hn].
      apply Bool.orb_false_iff in H as [Hq Hc].
      rewrite Hq, Hc, Hn. rewrite plain_chars by exact Hs'.
      rewrite csv_read_field_end by (unfold field_end; auto).
      assert (E : field_of (rev (list_ascii_of_string s') ++ [c]) = String c s').
      { change (rev (list_ascii_of_string s') ++ [c]) with (rev (list_ascii_of_string (String c s'))).
        apply field_of_rev. }
      rewrite E. reflexivity.
Qed.

Definition row_sep (rest : list ascii) : Prop := rest = [] \/ exists r, rest = newline :: r.

(** What the reader does after a complete record. *)
Definition after_row (rest : list ascii) (row : list string) : list (list string) :=
  match rest with
  | [] => [rev row]
  | _ :: r => rev row :: csv_read AtFieldStart r [] []
  end.

Lemma after_field_row (rest : list ascii) (row : list string) :
  row_sep rest -> after_field rest row = after_row rest row.
Proof. intros [-> | [r ->]]; reflexivity. Qed.

Definition read_back (row : list string) : list string :=
  match row with [] => [EmptyString] | _ => row end.

Lemma read_row (row : list string) (rest : list ascii) (acc : list string) :
  row_sep rest ->
  csv_read AtFieldStart
    (list_ascii_of_string (join (String comma EmptyString) (map csvEscape row)) ++ rest) [] acc =
  after_row rest (rev (read_back row) ++ acc).
Proof.
  intros Hsep. revert acc. induction row as [|s row IH]; intros acc.
  - simpl. rewrite csv_read_field_end by (unfold field_end, field_sep; destruct Hsep as [-> | [r ->]]; eauto).
    rewrite after_field_row by exact Hsep. reflexivity.
  - destruct row as [|s' row'].
    + simpl. rewrite read_escaped_field
        by (unfold field_sep; destruct Hsep as [-> | [r ->]]; eauto).
      rewrite after_field_row by exact Hsep. reflexivity.
    + change (join (String comma EmptyString) (map csvEscape (s :: s' :: row')))
        with (csvEscape s ++ String comma EmptyString
              ++ join (String comma EmptyString) (map csvEscape (s' :: row')))%string.
      rewrite !list_ascii_of_string_app, <- !app_assoc.
      rewrite read_escaped_field by (unfold field_sep; simpl; eauto).
      simpl. rewrite IH. simpl. rewrite <- !app_assoc. reflexivity.
Qed.

Lemma read_rows (rows : list (list string)) (row : list string) :
  csv_read AtFieldStart (list_ascii_of_string (csvContent (row :: rows))) [] [] =
  map read_back (row :: rows).
Proof.
  revert row; induction rows as [|row' rows IH]; intros row.
  - unfold csvContent; simpl.
    rewrite <- (app_nil_r (list_ascii_of_string _)).
    rewrite read_row by (left; reflexivity). simpl. rewrite app_nil_r, rev_involutive. reflexivity.
  - unfold csvContent. simpl map. cbn [join].
    rewrite list_ascii_of_string_app. simpl.
    rewrite read_row by (right; eauto). simpl.
    rewrite app_nil_r, rev_involutive. f_equal. apply IH.
Qed.

(** [downloadCsv]: reading the produced text back as CSV gives the rows,
    with an empty row read as one empty field. *)
Theorem csv_round_trip (rows : list (list string)) :
  rows <> [] -> parseCsv (csvContent rows) = map read_back rows.
Proof.
  intros H. destruct rows as [|row rows]; [congruence|]. apply read_rows.
Qed.

(** Ledger CSV export: the file reads back as the title rows, the header
    and one six-field row per ledger row, whatever commas, quotes or line
    breaks the account name, references or descriptions contain. *)
Theorem ledger_csv_read_back (toFixed2 : Q -> string) (firmName : string) (account : Account)
    (entries : list LedgerEntry) :
  parseCsv (csvContent (ledger_csv_rows toFixed2 firmName account entries)) =
  [["Ledger"]; ["Firm"; firmName]; ["Account"; acc_name account]; [EmptyString];
   ["Date"; "Reference"; "Description"; "Debit"; "Credit"; "Balance"]]
  ++ map (ledger_csv_row toFixed2) entries.
Proof.
  unfold ledger_csv_rows. simpl app. unfold parseCsv. rewrite read_rows.
  simpl. do 5 f_equal.
  rewrite map_map. apply map_ext. reflexivity.
Qed.

(* ================================================================== *)
(** * Journal list search *)

Lemma lower_ascii_idem (c : ascii) : lower_ascii (lower_ascii c) = lower_ascii c.
Proof. destruct c as [[] [] [] [] [] [] [] []]; vm_compute; reflexivity. Qed.

Lemma is_space_lower (c : ascii) : is_space (lower_ascii c) = is_space c.
Proof. destruct c as [[] [] [] [] [] [] [] []]; vm_compute; reflexivity. Qed.

Lemma toLowerCase_idem (s : string) : toLowerCase (toLowerCase s) = toLowerCase s.
Proof. induction s as [|c s IH]; simpl; [reflexivity|]. rewrite lower_ascii_idem, IH. reflexivity. Qed.

Lemma trim_start_lower (s : string) : trim_start (toLowerCase s) = toLowerCase (trim_start s).
Proof.
  induction s as [|c s IH]; simpl; [reflexivity|].
  rewrite is_space_lower. destruct (is_space c); [exact IH|reflexivity].
Qed.

Lemma string_rev_lower (s acc : string) :
  string_rev (toLowerCase s) (toLowerCase acc) = toLowerCase (string_rev s acc).
Proof.
  revert acc; induction s as [|c s IH]; intros acc; simpl; [reflexivity|].
  apply (IH (String c acc)).
Qed.

Lemma trim_lower (s : string) : trim (toLowerCase s) = toLowerCase (trim s).
Proof.
  unfold trim. rewrite trim_start_lower.
  rewrite (string_rev_lower _ EmptyString). rewrite trim_start_lower.
  apply (string_rev_lower _ EmptyString).
Qed.

Lemma length_toLowerCase (s : string) : String.length (toLowerCase s) = String.length s.
Proof. induction s as [|c s IH]; simpl; congruence. Qed.

(** Journal list filter: the search is case-insensitive in the search
    term (lower-casing the term does not change the result). *)
Theorem journal_search_case_insensitive (journalEntries : list JournalEntry)
    (accounts : list Account) (searchTerm fromDate toDate : string) :
  journal_filteredEntries journalEntries accounts (toLowerCase searchTerm) fromDate toDate =
  journal_filteredEntries journalEntries accounts searchTerm fromDate toDate.
Proof.
  unfold journal_filteredEntries. apply List.filter_ext. intros entry.
  unfold journal_matches. rewrite toLowerCase_idem, trim_lower, length_toLowerCase.
  reflexivity.
Qed.

(** Journal list filter: a blank search term with no date bounds lists
    every entry. *)
Theorem journal_blank_search_lists_all (journalEntries : list JournalEntry)
    (accounts : list Account) (searchTerm : string) :
  trim searchTerm = EmptyString ->
  journal_filteredEntries journalEntries accounts searchTerm "" "" = journalEntries.
Proof.
  intros Ht. unfold journal_filteredEntries.
  induction journalEntries as [|e es IH]; simpl; [reflexivity|].
  unfold journal_matches at 1. rewrite Ht. simpl. f_equal. exact IH.
Qed.

(* ================================================================== *)
(** * Sample ledger and witnesses *)

Definition sample_cash : Account := mkAccount "cash" "Cash" "1000" Asset None false.
Definition sample_sales : Account := mkAccount "sales" "Sales" "4000" Revenue None false.

Definition sample_e1 : JournalEntry :=
  mkEntry "e1" "2024-01-10" "JRN-1" None
    [mkLine "l1" "cash" None 100 0; mkLine "l2" "sales" None 0 100].
Definition sample_e2 : JournalEntry :=
  mkEntry "e2" "2024-02-20" "JRN-2" (Some "refund")
    [mkLine "l3" "cash" None 0 40; mkLine "l4" "sales" None 40 0].
Definition sample_e3 : JournalEntry :=
  mkEntry "e3" "2024-03-05" "JRN-3" None
    [mkLine "l5" "cash" None 0 10; mkLine "l6" "sales" None 10 0].

Definition blank_row : LedgerEntry := mkLedgerEntry "" "" "" None "" 0 0 0.

(** Witness for C9 on the sample ledger, entries given out of date order. *)
Lemma ledger_final_balance_agrees_witness :
  let rows := buildLedgerEntries [sample_e3; sample_e1; sample_e2] sample_cash
                                 "2024-01-01" "2024-12-31" in
  rows = removelast rows ++ [List.last rows blank_row] /\
  exists v,
    computeAccountBalances
      (List.filter (in_range "2024-01-01" "2024-12-31") [sample_e3; sample_e1; sample_e2])
      !! acc_id sample_cash = Some v /\ le_balance (List.last rows blank_row) == v.
Proof.
  intros rows.
  assert (H : rows = removelast rows ++ [List.last rows blank_row]) by (vm_compute; reflexivity).
  split; [exact H|].
  exact (ledger_final_balance_agrees _ _ _ _ _ _ H).
Defined.

(** Witness for C3: the single-entry sale on the sample accounts. *)
Lemma profit_and_loss_spec_witness :
  let r := buildReports [sample_e1] [sample_sales; sample_cash] "2024-01-01" "2024-12-31" in
  revenueTotal (pnl r) == 100 /\ assetTotal (bs_totals (balanceSheet r)) == 100 /\
  netProfit (pnl r) == 100.
Proof.
  apply (proj2 (profit_and_loss_spec [] [] "2024-01-01" "2024-12-31")
           sample_sales sample_cash sample_e1 "l1" "l2" None None);
    try reflexivity.
  discriminate.
Defined.

(** Witness for C4: the sample ledger given in the order d3, d1, d2. *)
Lemma ledger_entries_spec_witness :
  exists r1 r2 r3,
    buildLedgerEntries [sample_e3; sample_e1; sample_e2] sample_cash "2024-01-01" "2024-12-31"
    = [r1; r2; r3] /\
    le_date r1 = "2024-01-10"%string /\ le_date r2 = "2024-02-20"%string /\
    le_date r3 = "2024-03-05"%string /\
    le_balance r1 == 100 /\ le_balance r2 == 60 /\ le_balance r3 == 50.
Proof.
  apply (proj2 (ledger_entries_spec [] sample_cash "2024-01-01" "2024-12-31")
           "2024-01-10" "2024-02-20" "2024-03-05" sample_e1 sample_e2 sample_e3
           "l1" "l3" "l5" None None None);
    reflexivity.
Defined.

(** Witness for C1: the balanced sample entry over the two sample
    accounts, each listed once, gives equal Trial Balance totals. *)
Lemma trial_balance_lines_and_totals_witness :
  let tb := trialBalance (buildReports [sample_e1] [sample_cash; sample_sales]
                                       "2024-01-01" "2024-12-31") in
  totalDebit tb == totalCredit tb.
Proof.
  apply (proj2 (proj2 (proj2 (trial_balance_lines_and_totals [sample_e1]
                                [sample_cash; sample_sales] "2024-01-01" "2024-12-31")))).
  - intros e [<-|[]]. vm_compute. reflexivity.
  - simpl. constructor; [intros [H|[]]; discriminate H|]. constructor; [intros []|constructor].
  - intros e l [<-|[]] Hl. simpl in Hl.
    destruct Hl as [<-|[<-|[]]]; simpl; [left|right; left]; reflexivity.
Defined.

Definition sample_widget : InventoryItem := mkInventoryItem "w1" "Widget" 10.

(** An entry posted through the journal form, off by half a paisa. *)
Definition sample_e4 : JournalEntry :=
  mkEntry "e4" "2024-01-15" "JRN-4" None
    [mkLine "l7" "cash" None (20001 # 200) 0; mkLine "l8" "sales" None 0 100].

(** Witness for the customer contribution total: two customers. *)
Lemma customer_contribution_total_all_witness :
  cc_totalAmount (customerContribution
                    [mkInvoice "i1" "c1" 100; mkInvoice "i2" "c2" 50; mkInvoice "i3" "c1" 25]
                    [mkParty "c1" "Acme"])
  == qsum invoice_total [mkInvoice "i1" "c1" 100; mkInvoice "i2" "c2" 50; mkInvoice "i3" "c1" 25].
Proof.
  apply customer_contribution_total_all. apply Nat.leb_le. vm_compute. reflexivity.
Defined.

(** Witness for the invoice builder's [removeLine]: two lines, the first removed. *)
Lemma invoice_removeLine_keeps_line_witness :
  let lines' := invoice_removeLine (fun s : string => s) "a" ["a"; "b"] in
  lines' <> [] /\ (length ["a"; "b"] <= S (length lines'))%nat /\
  (length ["a"; "b"] <> 1%nat -> ~ In "a" (map (fun s : string => s) lines')).
Proof.
  apply invoice_removeLine_keeps_line.
  - discriminate.
  - repeat constructor; simpl; intuition discriminate.
Defined.

(** Witness for the journal form's [handleRemoveLine]: three lines, the
    middle one removed. *)
Lemma journal_removeLine_keeps_two_witness :
  let lines' := journal_removeLine (fun s : string => s) "b" ["a"; "b"; "c"] in
  (2 <= length lines')%nat /\ (length ["a"; "b"; "c"] <= S (length lines'))%nat /\
  ((2 < length ["a"; "b"; "c"])%nat -> ~ In "b" (map (fun s : string => s) lines')).
Proof.
  apply journal_removeLine_keeps_two.
  - simpl. lia.
  - repeat constructor; simpl; intuition discriminate.
Defined.

(** Witness for [addLine]: a discounted, taxed line with a blank unit price. *)
Lemma invoice_addLine_totals_witness :
  let t := computeTotals [mkDraftLine "w1" 2 None 10 5] [sample_widget] in
  let t' := computeTotals ([mkDraftLine "w1" 2 None 10 5] ++ [emptyDraftLine]) [sample_widget] in
  subtotal t' == subtotal t /\ discountTotal t' == discountTotal t /\
  taxTotal t' == taxTotal t /\ total t' == total t.
Proof.
  apply invoice_addLine_totals. intros item [<-|[]]. discriminate.
Defined.

(** Witness for an accepted invoice: one line priced from the inventory item. *)
Lemma invoice_submit_accepted_witness :
  "c1" <> "" /\
  (forall line, In line [mkDraftLine "w1" 2 None 0 18] -> dl_inventoryId line <> "") /\
  computeTotals [mkDraftLine "w1" 2 None 0 18] [sample_widget]
  = computeTotals [mkDraftLine "w1" 2 None 0 18] [sample_widget] /\
  map enrichLine [mkDraftLine "w1" 2 None 0 18] = map enrichLine [mkDraftLine "w1" 2 None 0 18] /\
  exists line, In line [mkDraftLine "w1" 2 None 0 18] /\ ~ dl_quantity line == 0 /\
    0 < draft_taxable [sample_widget] line.
Proof.
  apply (invoice_submit_accepted "c1" [mkDraftLine "w1" 2 None 0 18] [sample_widget]).
  vm_compute. reflexivity.
Defined.

(** Witness for the invoice PDF amounts: a blank-price line and a priced one. *)
Lemma invoice_pdf_amounts_witness :
  let lines := [mkDraftLine "w1" 2 None 0 0; mkDraftLine "w1" 1 (Some 30) 0 0] in
  qsum pdf_line_amount (map enrichLine lines)
  == total (computeTotals lines [sample_widget])
     - qsum (fun line => match dl_unitPrice line with
                         | Some _ => 0
                         | None => draft_lineTotal [sample_widget] line
                         end) lines.
Proof.
  intros lines.
  apply (invoice_pdf_amounts "c1" lines [sample_widget]).
  vm_compute. reflexivity.
Defined.

(** Witness for a posted journal entry: a blank reference gets [JRN-] and the time. *)
Lemma journal_submit_posted_witness :
  let posted := [mkLine "t1" "cash" (Some "") 100 0; mkLine "t2" "sales" (Some "") 0 100] in
  Qabs (qsum line_debit posted - qsum line_credit posted) < 1 # 100 /\
  (forall line, In line posted -> line_accountId line <> "") /\
  "JRN-1700000000000"%string <> "" /\ length posted = length
    [mkJournalDraftLine "t1" "cash" "" 100 0; mkJournalDraftLine "t2" "sales" "" 0 100].
Proof.
  intros posted.
  apply (journal_submit_posted jdl_tempId "1700000000000" ""
           [mkJournalDraftLine "t1" "cash" "" 100 0; mkJournalDraftLine "t2" "sales" "" 0 100]).
  vm_compute. reflexivity.
Defined.

(** Witness for the Trial Balance gap: one exact and one nearly balanced entry. *)
Lemma journal_tolerance_trial_balance_witness :
  let tb := trialBalance (buildReports [sample_e1; sample_e4] [sample_cash; sample_sales]
                                       "2024-01-01" "2024-12-31") in
  Qabs (totalDebit tb - totalCredit tb) <= inject_Z (Z.of_nat 2) * (1 # 100).
Proof.
  apply (journal_tolerance_trial_balance [sample_e1; sample_e4]).
  - intros e [<-|[<-|[]]]; vm_compute; reflexivity.
  - simpl. repeat constructor; simpl; intuition discriminate.
  - intros e l [<-|[<-|[]]] Hl; simpl in Hl;
      destruct Hl as [<-|[<-|[]]]; simpl; auto.
Defined.

(** Witness for the CSV read back: a field with a comma, one with a double
    quote and an empty row. *)
Lemma csv_round_trip_witness :
  parseCsv (csvContent [["a,b"; String dquote "x"]; []]) =
  map read_back [["a,b"; String dquote "x"]; []].
Proof.
  apply csv_round_trip. discriminate.
Defined.

(** Witness for the blank search: two spaces and no date bounds. *)
Lemma journal_blank_search_lists_all_witness :
  journal_filteredEntries [sample_e1; sample_e2] [] "  " "" "" = [sample_e1; sample_e2].
Proof.
  apply journal_blank_search_lists_all. vm_compute. reflexivity.
Defined.
